(** * Visual Mind AI service worker (sw.js): a shallow embedding

    The worker is a set of event listeners over the browser's Cache API
    and fetch.  The listeners are embedded as computations over an
    explicit cache store that also record, in order, the host calls they
    make.  What the host decides (whether a fetch resolves, whether a
    cache can be opened or written) is a parameter of every listener.
    The install, activate, fetch, message and push listeners are
    embedded over the cache store; the sync and notificationclick
    listeners touch neither the caches nor the network and are embedded
    apart, over the window clients. *)

From stdpp Require Import gmap strings list.

Local Open Scope string_scope.
Local Open Scope Z_scope.
Local Open Scope list_scope.
Set Warnings "-register-all".

(** ** JavaScript values *)

Inductive JsError : Type :=
| TypeError (msg : string)
| SyntaxError (msg : string)
| DOMException (name : string).

(** Outcome of synchronous code: it returns or it throws. *)
Inductive Completion (A : Type) : Type :=
| Returned (value : A)
| Threw (error : JsError).
Arguments Returned {A} value.
Arguments Threw {A} error.

(** The values that reach the worker as message data or as a parsed push
    payload.  Numbers are kept to the integers and NaN: the worker only
    tests them for truthiness. *)
Inductive JsVal : Type :=
| JUndefined
| JNull
| JBool (b : bool)
| JNum (n : Z)
| JNaN
| JStr (s : string)
| JArr (items : list JsVal)
| JObj (props : list (string * JsVal)).

(** ToBoolean. *)
Definition truthy (v : JsVal) : bool :=
  match v with
  | JUndefined | JNull | JNaN => false
  | JBool b => b
  | JNum n => negb (n =? 0)
  | JStr s => negb (String.eqb s "")
  | JArr _ | JObj _ => true
  end.

(** [a || b] *)
Definition js_or (a b : JsVal) : JsVal := if truthy a then a else b.

Fixpoint own_prop (props : list (string * JsVal)) (k : string) : option JsVal :=
  match props with
  | [] => None
  | (k', v) :: rest => if String.eqb k' k then Some v else own_prop rest k
  end.

(** [v.k] for the property names the worker reads ([type], [title],
    [body], [tag], [requireInteraction], [data]): none of them is found
    on a primitive or on an array, and reading a property of [undefined]
    or [null] throws. *)
Definition member (v : JsVal) (k : string) : Completion JsVal :=
  match v with
  | JUndefined | JNull =>
      Threw (TypeError "Cannot read properties of null or undefined")
  | JObj props => Returned (default JUndefined (own_prop props k))
  | _ => Returned JUndefined
  end.

(** [v === 'lit'] *)
Definition strict_eq_str (v : JsVal) (lit : string) : bool :=
  match v with
  | JStr s => String.eqb s lit
  | _ => false
  end.

(** [s.startsWith(p)] and [s.includes(p)] *)
Definition startsWith (s p : string) : bool := String.prefix p s.

Fixpoint includes (s p : string) : bool :=
  String.prefix p s ||
  match s with
  | EmptyString => false
  | String _ s' => includes s' p
  end.

(** ** Requests and responses *)

Inductive RequestMode : Type := SameOrigin | NoCors | Cors | Navigate.

(** Header names compare without case: a Headers object keeps one
    combined value per lower-cased name, and [get] lower-cases the name
    it is asked for and answers [null] (here [None]) when it is missing. *)
Definition ascii_lower (c : Ascii.ascii) : Ascii.ascii :=
  let n := Ascii.nat_of_ascii c in
  if ((65 <=? n) && (n <=? 90))%nat then Ascii.ascii_of_nat (n + 32) else c.

Fixpoint lower (s : string) : string :=
  match s with
  | EmptyString => EmptyString
  | String c s' => String (ascii_lower c) (lower s')
  end.

Definition Headers : Type := list (string * string).

Fixpoint headers_lookup (hs : Headers) (name : string) : option string :=
  match hs with
  | [] => None
  | (n, v) :: rest => if String.eqb n name then Some v else headers_lookup rest name
  end.

Definition headers_get (hs : Headers) (name : string) : option string :=
  headers_lookup hs (lower name).

(** [new Headers(init)] from an object literal. *)
Definition new_Headers (init : list (string * string)) : Headers :=
  map (fun nv => (lower nv.1, nv.2)) init.

Module Request.
Record t : Type := mk {
  url : string;        (* serialized absolute URL *)
  method : string;
  mode : RequestMode;
  headers : Headers
}.
End Request.

Inductive ResponseType : Type :=
| Basic | CorsType | Default | ErrorType | Opaque | OpaqueRedirect.

#[global] Instance ResponseType_eq_dec : EqDecision ResponseType.
Proof. solve_decision. Defined.

Module Response.
Record t : Type := mk {
  status : Z;
  type : ResponseType;
  headers : Headers;
  body : string
}.
End Response.

(** The character [c] is the one of the one-letter string [s]. *)
Definition is_char (c : Ascii.ascii) (s : string) : bool :=
  String.eqb (String c EmptyString) s.

(** The path of an absolute URL, from the text after [://]: a URL whose
    authority is followed by no path is serialized with the root path,
    put before the query or the fragment when there is one. *)
Fixpoint with_root_path (rest : string) : string :=
  match rest with
  | EmptyString => "/"
  | String c rest' =>
      if is_char c "/" then rest
      else if is_char c "?" || is_char c "#" then "/" +:+ rest
      else String c (with_root_path rest')
  end.

(** A reference that starts with a scheme and [://] is an absolute URL:
    its serialization, or [None] for a reference without a scheme. *)
Fixpoint absolute_url (reference : string) : option string :=
  match reference with
  | EmptyString => None
  | String c rest =>
      if String.prefix "://" reference
      then Some ("://" +:+
                 with_root_path
                   (String.substring 3 (String.length reference) reference))
      else if is_char c "/" || is_char c "?" || is_char c "#"
      then None
      else option_map (String c) (absolute_url rest)
  end.

(** [new URL(reference, self.location).href] for a worker served from
    [origin] (scheme, host and port, without a path), for the two shapes
    of reference the worker writes, both in normal form: an absolute URL
    (['https://cdn.tailwindcss.com'] becomes
    ['https://cdn.tailwindcss.com/']) and a path-absolute reference
    (['/index.html'] goes under the worker's origin).  The other work of
    the URL parser (letter case, default ports, dot segments,
    percent-encoding, references relative to a directory) does not occur
    on those and is not modelled: such a reference is kept as it is. *)
Definition parse_url (origin reference : string) : string :=
  match absolute_url reference with
  | Some url => url
  | None =>
      if String.prefix "/" reference && negb (String.prefix "//" reference)
      then origin +:+ reference
      else reference
  end.

(** [new Request(url, { mode: 'no-cors' })] in a worker served from
    [origin]: a GET request without headers of its own, whose URL is the
    given one parsed against the worker's URL and serialized. *)
Definition new_Request (origin url : string) (mode : RequestMode) : Request.t :=
  Request.mk (parse_url origin url) "GET" mode [].

(** [new Response(body, { status, headers })] with a string body: status
    defaults to 200, and a body without a Content-Type gets text/plain. *)
Definition new_Response (body : string) (status : option Z)
    (headers : list (string * string)) : Response.t :=
  let hs := new_Headers headers in
  Response.mk (default 200 status) Default
    (match headers_get hs "content-type" with
     | Some _ => hs
     | None => hs ++ [("content-type", "text/plain;charset=UTF-8")]
     end)
    body.

(** [response.clone()] of a response whose body was not read. *)
Definition clone (r : Response.t) : Response.t := r.

(** [new URL(u).href] of a URL that is serialized already, as
    [request.url] is: parsing and serializing again gives it back. *)
Definition href (u : string) : string := u.

(** ** The cache store *)

(** A cache maps request URLs to responses; CacheStorage keeps the named
    caches in creation order, which is the order [caches.keys()] lists
    them and [caches.match] searches them. *)
Abbreviation CacheStorage := (list (string * gmap string Response.t)).

Definition cache_names (cs : CacheStorage) : list string := cs.*1.

Fixpoint storage_lookup (cs : CacheStorage) (name : string)
  : option (gmap string Response.t) :=
  match cs with
  | [] => None
  | (n, c) :: rest => if String.eqb n name then Some c else storage_lookup rest name
  end.

Definition storage_has (cs : CacheStorage) (name : string) : bool :=
  bool_decide (is_Some (storage_lookup cs name)).

Definition storage_open (cs : CacheStorage) (name : string) : CacheStorage :=
  if storage_has cs name then cs else cs ++ [(name, ∅)].

Fixpoint storage_put (cs : CacheStorage) (name url : string) (r : Response.t)
  : CacheStorage :=
  match cs with
  | [] => []
  | (n, c) :: rest =>
      if String.eqb n name then (n, <[url := r]> c) :: rest
      else (n, c) :: storage_put rest name url r
  end.

Definition storage_delete (cs : CacheStorage) (name : string) : CacheStorage :=
  filter (fun nc => nc.1 ≠ name) cs.

Fixpoint storage_match (cs : CacheStorage) (url : string) : option Response.t :=
  match cs with
  | [] => None
  | (_, c) :: rest =>
      match c !! url with
      | Some r => Some r
      | None => storage_match rest url
      end
  end.

(** ** Host calls, tasks and promises *)

(** How a promise settles. *)
Inductive Settled (A : Type) : Type :=
| Fulfilled (value : A)
| Rejected (reason : JsError).
Arguments Fulfilled {A} value.
Arguments Rejected {A} reason.

(** The calls the worker makes on its host, as they appear in a run.
    Console output is left out. *)
Inductive HostCall : Type :=
| Fetch (request : Request.t)
| CachesOpen (name : string)
| CacheAddAll (cache : string) (requests : list Request.t)
| CachePut (cache : string) (request : Request.t) (response : Response.t)
| CachesMatch (request : Request.t)
| CachesKeys
| CachesDelete (name : string)
| SkipWaiting
| ClientsClaim
| ClientsMatchAll
| PostMessage (client : string) (message : JsVal)
| ShowNotification (title : JsVal) (options : JsVal).

(** A task runs against the cache store and gives a result, the store it
    leaves and the host calls it made, oldest first. *)
Definition Task (A : Type) : Type :=
  CacheStorage -> A * CacheStorage * list HostCall.

Definition ret {A} (a : A) : Task A := fun cs => (a, cs, []).

Definition bind {A B} (m : Task A) (k : A -> Task B) : Task B :=
  fun cs =>
    let '(a, cs1, t1) := m cs in
    let '(b, cs2, t2) := k a cs1 in
    (b, cs2, t1 ++ t2).

Notation "x <- m ;; k" := (bind m (fun x => k))
  (at level 100, m at next level, right associativity).

Definition result {A} (r : A * CacheStorage * list HostCall) : A := r.1.1.
Definition store {A} (r : A * CacheStorage * list HostCall) : CacheStorage := r.1.2.
Definition calls {A} (r : A * CacheStorage * list HostCall) : list HostCall := r.2.

(** A promise is a task that ends settled.  The worker's chains run to
    completion one after the other, in the order they are started. *)
Definition Promise (A : Type) : Type := Task (Settled A).

Definition resolve {A} (a : A) : Promise A := ret (Fulfilled a).
Definition reject {A} (e : JsError) : Promise A := ret (Rejected e).

(** [p.then(f)] *)
Definition then_ {A B} (p : Promise A) (f : A -> Promise B) : Promise B :=
  s <- p ;;
  match s with
  | Fulfilled a => f a
  | Rejected e => reject e
  end.

(** [p.catch(f)] *)
Definition catch {A} (p : Promise A) (f : JsError -> Promise A) : Promise A :=
  s <- p ;;
  match s with
  | Fulfilled a => resolve a
  | Rejected e => f e
  end.

(** A promise that is started and not waited for: what it does to the
    store stays, how it settles is dropped. *)
Definition detach {A} (p : Promise A) : Task unit := _ <- p ;; ret tt.

(** [Promise.all(ps)]: every promise of the list has been started; the
    result rejects with the first rejection. *)
Fixpoint Promise_all {A} (ps : list (Promise A)) : Promise (list A) :=
  match ps with
  | [] => resolve []
  | p :: rest =>
      s <- p ;;
      ss <- Promise_all rest ;;
      ret match s, ss with
          | Fulfilled a, Fulfilled l => Fulfilled (a :: l)
          | Rejected e, _ => Rejected e
          | Fulfilled _, Rejected e => Rejected e
          end
  end.

(** ** The host *)

(** What the host decides in a run: where the worker is served from
    ([self.location.origin]), how a network fetch settles, and whether
    opening a cache or writing an entry fails. *)
Record Host : Type := {
  origin : string;
  network : Request.t -> Settled Response.t;
  open_error : string -> option JsError;
  put_error : string -> Request.t -> Response.t -> option JsError;
  window_clients : list string
}.

(** The statuses [cache.addAll] accepts: the ok ones, 206 apart. *)
Definition ok_status (r : Response.t) : bool :=
  (200 <=? Response.status r) && (Response.status r <=? 299)
  && negb (Response.status r =? 206).

Section HostAPI.
Variable h : Host.

(** [fetch(request)] settles as the network decides. *)
Definition fetch (request : Request.t) : Promise Response.t :=
  fun cs => (network h request, cs, [Fetch request]).

(** [caches.open(name)]: the cache is created when it is missing; the
    handle is the name. *)
Definition caches_open (name : string) : Promise string :=
  fun cs =>
    match open_error h name with
    | None => (Fulfilled name, storage_open cs name, [CachesOpen name])
    | Some e => (Rejected e, cs, [CachesOpen name])
    end.

(** [cache.put(request, response)]: the entry replaces the one stored
    under the URL of the request, unless the host refuses the write. *)
Definition cache_put (cache : string) (request : Request.t)
    (response : Response.t) : Promise unit :=
  fun cs =>
    match put_error h cache request response with
    | None =>
        (Fulfilled tt, storage_put cs cache (Request.url request) response,
         [CachePut cache request response])
    | Some e => (Rejected e, cs, [CachePut cache request response])
    end.

(** The fetches of [cache.addAll(requests)]: all of them answered with
    an accepted status, or no result. *)
Fixpoint fetch_all (requests : list Request.t)
  : option (list (string * Response.t)) :=
  match requests with
  | [] => Some []
  | r :: rest =>
      match network h r with
      | Fulfilled resp =>
          if ok_status resp
          then option_map (cons (Request.url r, resp)) (fetch_all rest)
          else None
      | Rejected _ => None
      end
  end.

(** [cache.addAll(requests)] stores every response or none: it rejects
    as soon as one request fails or is answered with another status. *)
Definition cache_addAll (cache : string) (requests : list Request.t)
  : Promise unit :=
  fun cs =>
    match fetch_all requests with
    | Some entries =>
        (Fulfilled tt,
         fold_left (fun s e => storage_put s cache e.1 e.2) entries cs,
         [CacheAddAll cache requests])
    | None =>
        (Rejected (TypeError "Request failed"), cs, [CacheAddAll cache requests])
    end.

(** [caches.match(request)]: the first match over all caches, or
    [undefined] (here [None]). *)
Definition caches_match (request : Request.t) : Promise (option Response.t) :=
  fun cs =>
    (Fulfilled (storage_match cs (Request.url request)), cs, [CachesMatch request]).

Definition caches_keys : Promise (list string) :=
  fun cs => (Fulfilled (cache_names cs), cs, [CachesKeys]).

Definition caches_delete (name : string) : Promise bool :=
  fun cs => (Fulfilled (storage_has cs name), storage_delete cs name, [CachesDelete name]).

Definition skipWaiting : Promise unit :=
  fun cs => (Fulfilled tt, cs, [SkipWaiting]).

Definition clients_claim : Promise unit :=
  fun cs => (Fulfilled tt, cs, [ClientsClaim]).

Definition clients_matchAll : Promise (list string) :=
  fun cs => (Fulfilled (window_clients h), cs, [ClientsMatchAll]).

Definition postMessage (client : string) (message : JsVal) : Task unit :=
  fun cs => (tt, cs, [PostMessage client message]).

Definition showNotification (title options : JsVal) : Promise unit :=
  fun cs => (Fulfilled tt, cs, [ShowNotification title options]).
End HostAPI.

(** ** The worker's constants *)

Definition CACHE_NAME : string := "visual-mind-ai-v1.0.0".
Definition RUNTIME_CACHE : string := "visual-mind-runtime-v1.0.0".

Definition PRECACHE_URLS : list string :=
  [ "/";
    "/visual-mind-ai-pwa.html";
    "/index.html";
    "https://cdn.tailwindcss.com";
    "https://unpkg.com/react@18/umd/react.production.min.js";
    "https://unpkg.com/react-dom@18/umd/react-dom.production.min.js";
    "https://unpkg.com/@babel/standalone/babel.min.js" ].

Definition NO_CACHE_URLS : list string :=
  [ "https://api.anthropic.com" ].

(** The double quote, to write the attribute quotes of the offline page. *)
Definition dquote : string := String (Ascii.ascii_of_nat 34) EmptyString.

(** The template literal of the offline page, byte for byte (UTF-8); the
    pieces are the text between its double quotes. *)
Definition OFFLINE_HTML : string :=
  String.concat dquote
    ["<!DOCTYPE html>
                <html lang=";
     "es";
     ">
                <head>
                  <meta charset=";
     "UTF-8";
     ">
                  <meta name=";
     "viewport";
     " content=";
     "width=device-width, initial-scale=1.0";
     ">
                  <title>Visual Mind AI - Sin Conexión</title>
                  <style>
                    body {
                      font-family: system-ui, -apple-system, sans-serif;
                      display: flex;
                      align-items: center;
                      justify-content: center;
                      min-height: 100vh;
                      margin: 0;
                      background: linear-gradient(135deg, #1a1a2e 0%, #16213e 100%);
                      color: white;
                      text-align: center;
                      padding: 20px;
                    }
                    .container {
                      max-width: 400px;
                    }
                    h1 {
                      font-size: 3em;
                      margin: 0 0 20px 0;
                    }
                    p {
                      font-size: 1.2em;
                      margin: 10px 0;
                      color: #94a3b8;
                    }
                    button {
                      margin-top: 30px;
                      padding: 15px 30px;
                      font-size: 1em;
                      background: #22d3ee;
                      color: #0c1e3d;
                      border: none;
                      border-radius: 10px;
                      cursor: pointer;
                      font-weight: bold;
                    }
                    button:hover {
                      background: #06b6d4;
                    }
                  </style>
                </head>
                <body>
                  <div class=";
     "container";
     ">
                    <h1>⚠️</h1>
                    <h2>Sin Conexión</h2>
                    <p>Visual Mind AI requiere conexión a internet para funcionar completamente.</p>
                    <p>Verifica tu conexión e intenta nuevamente.</p>
                    <button onclick=";
     "location.reload()";
     ">Reintentar</button>
                  </div>
                </body>
                </html>"].

(** ** The listeners *)

Definition cbind {A B} (c : Completion A) (k : A -> Completion B)
  : Completion B :=
  match c with
  | Returned a => k a
  | Threw e => Threw e
  end.

Notation "x <-! c ;; k" := (cbind c (fun x => k))
  (at level 100, c at next level, right associativity).

(** [list.forEach(f)] *)
Fixpoint forEach {A} (l : list A) (f : A -> Task unit) : Task unit :=
  match l with
  | [] => ret tt
  | x :: rest => _ <- f x ;; forEach rest f
  end.

(** [event.data && event.data.type === lit] of the message listener. *)
Definition data_type_is (data : JsVal) (lit : string) : Completion bool :=
  if truthy data
  then type <-! member data "type" ;; Returned (strict_eq_str type lit)
  else Returned false.

(** The payload of a push event: [json] is what [event.data.json()]
    comes to, the parsed value or the error that parsing throws. *)
Record PushMessageData : Type := { json : Completion JsVal }.

(** [event.data ? event.data.json() : {}] *)
Definition push_data (event_data : option PushMessageData) : Completion JsVal :=
  match event_data with
  | Some d => json d
  | None => Returned (JObj [])
  end.

(** The title and the options the push listener builds (sw.js 223-233). *)
Definition push_notification (event_data : option PushMessageData)
  : Completion (JsVal * JsVal) :=
  data <-! push_data event_data ;;
  data_title <-! member data "title" ;;
  let title := js_or data_title (JStr "Visual Mind AI") in
  data_body <-! member data "body" ;;
  data_tag <-! member data "tag" ;;
  data_requireInteraction <-! member data "requireInteraction" ;;
  data_data <-! member data "data" ;;
  let options :=
    JObj [ ("body", js_or data_body (JStr "Nueva notificación"));
           ("icon", JStr "/icon-192.png");
           ("badge", JStr "/badge-72.png");
           ("vibrate", JArr [JNum 200; JNum 100; JNum 200]);
           ("tag", js_or data_tag (JStr "default"));
           ("requireInteraction", js_or data_requireInteraction (JBool false));
           ("data", js_or data_data (JObj [])) ] in
  Returned (title, options).

(** What the fetch listener leaves the event with: it returned without
    [event.respondWith], or it answered with a promise that settled. *)
Inductive FetchHandling : Type :=
| NotIntercepted
| RespondWith (answer : Settled Response.t).

Section Worker.
Variable h : Host.

(** [install] (sw.js 24-40): what [event.waitUntil] is given. *)
Definition install_listener : Promise unit :=
  then_
    (then_ (caches_open h CACHE_NAME)
       (fun cache =>
          catch
            (cache_addAll h cache
               (map (fun url => new_Request (origin h) url NoCors) PRECACHE_URLS))
            (fun err => resolve tt)))
    (fun _ => skipWaiting).

(** [activate] (sw.js 43-62). *)
Definition activate_listener : Promise unit :=
  then_
    (then_ caches_keys
       (fun cacheNames =>
          Promise_all
            (map (fun cacheName => caches_delete cacheName)
               (filter
                  (fun cacheName =>
                     cacheName ≠ CACHE_NAME ∧ cacheName ≠ RUNTIME_CACHE)
                  cacheNames))))
    (fun _ => clients_claim).

(** The [then] branch of the fetch chain (sw.js 81-94).  [fetch]
    resolves with a Response object, which is truthy, so of the test of
    line 83 the status and the type remain.  The cache write is started
    and not waited for; the [catch] of line 90 covers [caches.open], and
    the promise of [cache.put] is dropped. *)
Definition on_network_response (request : Request.t) (response : Response.t)
  : Promise Response.t :=
  _ <- (if (Response.status response =? 200)
           && negb (bool_decide (Response.type response = Opaque))
        then
          let responseToCache := clone response in
          detach
            (catch
               (then_ (caches_open h RUNTIME_CACHE)
                  (fun cache =>
                     _ <- detach (cache_put h cache request responseToCache) ;;
                     resolve tt))
               (fun err => resolve tt))
        else ret tt) ;;
  resolve response.

(** The [catch] branch (sw.js 95-173).  [request.headers.get('accept')]
    is [null] for a request without that header, and calling [includes]
    on it throws a TypeError, which rejects the chain. *)
Definition on_network_failure (request : Request.t) : Promise Response.t :=
  then_ (caches_match request)
    (fun cachedResponse =>
       match cachedResponse with
       | Some cached => resolve cached
       | None =>
           match headers_get (Request.headers request) "accept" with
           | None =>
               reject (TypeError "Cannot read properties of null (reading 'includes')")
           | Some accept =>
               if includes accept "text/html"
               then resolve
                      (new_Response OFFLINE_HTML None
                         [("Content-Type", "text/html")])
               else resolve (new_Response "Service Unavailable" (Some 503) [])
           end
       end).

(** [fetch] (sw.js 65-175). *)
Definition fetch_listener (request : Request.t) : Task FetchHandling :=
  let url := href (Request.url request) in
  if existsb (fun noCache => startsWith url noCache) NO_CACHE_URLS
  then ret NotIntercepted
  else if negb (String.eqb (Request.method request) "GET")
  then ret NotIntercepted
  else
    answer <- catch
                (then_ (fetch h request) (on_network_response request))
                (fun _ => on_network_failure request) ;;
    ret (RespondWith answer).

(** The chain the message listener waits for on CLEAR_CACHE
    (sw.js 185-202). *)
Definition clear_caches : Promise unit :=
  then_
    (then_
       (then_ caches_keys
          (fun cacheNames =>
             Promise_all (map (fun cacheName => caches_delete cacheName) cacheNames)))
       (fun _ => clients_matchAll h))
    (fun clients =>
       _ <- forEach clients
              (fun client =>
                 postMessage client
                   (JObj [ ("type", JStr "CACHE_CLEARED");
                           ("message", JStr "Caché limpiado exitosamente") ])) ;;
       resolve tt).

(** [message] (sw.js 178-205).  The listener returns how the promise
    given to [event.waitUntil] settled, when it gave one. *)
Definition message_listener (data : JsVal)
  : Task (Completion (option (Settled unit))) :=
  match data_type_is data "SKIP_WAITING" with
  | Threw e => ret (Threw e)
  | Returned skip =>
      _ <- (if skip then detach skipWaiting else ret tt) ;;
      match data_type_is data "CLEAR_CACHE" with
      | Threw e => ret (Threw e)
      | Returned true => s <- clear_caches ;; ret (Returned (Some s))
      | Returned false => ret (Returned None)
      end
  end.

(** [push] (sw.js 222-238). *)
Definition push_listener (event_data : option PushMessageData)
  : Task (Completion (Settled unit)) :=
  match push_notification event_data with
  | Threw e => ret (Threw e)
  | Returned (title, options) =>
      s <- showNotification title options ;; ret (Returned s)
  end.
End Worker.

(** * Predicates and samples the statements use *)

(** The request URL starts with an entry of the deny list. *)
Definition denylisted (request : Request.t) : Prop :=
  ∃ noCache, noCache ∈ NO_CACHE_URLS ∧
             startsWith (Request.url request) noCache = true.

(** The store and the calls of the cache write that follows a network
    response. *)
Definition cacheable (response : Response.t) : Prop :=
  Response.status response = 200 ∧ Response.type response ≠ Opaque.

#[global] Instance cacheable_dec (response : Response.t) : Decision (cacheable response).
Proof. unfold cacheable. apply _. Defined.

Definition offline_page : Response.t :=
  new_Response OFFLINE_HTML None [("Content-Type", "text/html")].

Definition service_unavailable : Response.t :=
  new_Response "Service Unavailable" (Some 503) [].

(** A response the worker built itself. *)
Definition synthesized (response : Response.t) : Prop :=
  response = offline_page ∨ response = service_unavailable.

Definition offline_host : Host :=
  {| origin := "https://visual-mind.example";
     network := fun _ => Rejected (TypeError "Failed to fetch");
     open_error := fun _ => None;
     put_error := fun _ _ _ => None;
     window_clients := [] |}.

Definition online_host (response : Response.t) : Host :=
  {| origin := "https://visual-mind.example";
     network := fun _ => Fulfilled response;
     open_error := fun _ => None;
     put_error := fun _ _ _ => None;
     window_clients := ["window-1"] |}.

(** The network answers, and every cache write is refused. *)
Definition full_disk_host (response : Response.t) : Host :=
  {| origin := "https://visual-mind.example";
     network := fun _ => Fulfilled response;
     open_error := fun _ => None;
     put_error := fun _ _ _ => Some (DOMException "QuotaExceededError");
     window_clients := [] |}.

Definition page_request : Request.t :=
  Request.mk "https://visual-mind.example/index.html" "GET" Navigate
    [("accept", "text/html,application/xhtml+xml")].

Definition script_request : Request.t :=
  Request.mk "https://visual-mind.example/app.js" "GET" NoCors
    [("accept", "*/*")].

(** A GET request that carries no Accept header. *)
Definition bare_request : Request.t :=
  Request.mk "https://visual-mind.example/data.json" "GET" Cors [].

Definition api_request : Request.t :=
  Request.mk "https://api.anthropic.com/v1/messages" "GET" Cors
    [("accept", "application/json")].

Definition upload_request : Request.t :=
  Request.mk "https://visual-mind.example/recordings" "POST" Cors
    [("accept", "application/json")].

Definition page_response : Response.t :=
  Response.mk 200 Basic [("content-type", "text/html")] "<html></html>".

Definition missing_response : Response.t :=
  Response.mk 404 Basic [("content-type", "text/plain")] "Not Found".

(** The message data is an object whose [type] is the string [lit]. *)
Definition has_type (data : JsVal) (lit : string) : Prop :=
  ∃ props, data = JObj props ∧ own_prop props "type" = Some (JStr lit).

Definition CACHE_CLEARED : JsVal :=
  JObj [ ("type", JStr "CACHE_CLEARED");
         ("message", JStr "Caché limpiado exitosamente") ].

Definition precache_requests (h : Host) : list Request.t :=
  map (fun url => new_Request (origin h) url NoCors) PRECACHE_URLS.

(** A field of the parsed payload, when the payload is an object that
    has it. *)
Definition payload_field (data : JsVal) (k : string) : option JsVal :=
  match data with
  | JObj props => own_prop props k
  | _ => None
  end.

(** What [data.k || d] comes to: the field when it is there and truthy,
    the default otherwise. *)
Definition field_or (data : JsVal) (k : string) (d : JsVal) : JsVal :=
  match payload_field data k with
  | Some v => if truthy v then v else d
  | None => d
  end.

(** The reading of the specification: the field when it is present, the
    default when it is absent. *)
Definition claimed_field (data : JsVal) (k : string) (d : JsVal) : JsVal :=
  default d (payload_field data k).

(** The notification call, given how a field is chosen. *)
Definition notification_of (field : JsVal → string → JsVal → JsVal)
    (data : JsVal) : HostCall :=
  ShowNotification
    (field data "title" (JStr "Visual Mind AI"))
    (JObj [ ("body", field data "body" (JStr "Nueva notificación"));
            ("icon", JStr "/icon-192.png");
            ("badge", JStr "/badge-72.png");
            ("vibrate", JArr [JNum 200; JNum 100; JNum 200]);
            ("tag", field data "tag" (JStr "default"));
            ("requireInteraction", field data "requireInteraction" (JBool false));
            ("data", field data "data" (JObj [])) ]).

(** C9 as it is written, at one push event: one notification, with each
    field from the payload when present and the default when absent. *)
Definition push_claim (event_data : option PushMessageData) (cs : CacheStorage)
  : Prop :=
  calls (push_listener event_data cs) =
    [notification_of claimed_field
       (match push_data event_data with
        | Returned data => data
        | Threw _ => JObj []
        end)].

(** A payload whose [data] field is the number 0. *)
Definition zero_data_push : option PushMessageData :=
  Some {| json := Returned (JObj [ ("title", JStr "Copia lista");
                                   ("data", JNum 0) ]) |}.

(** A payload that is not JSON text. *)
Definition text_push : option PushMessageData :=
  Some {| json := Threw (SyntaxError "Unexpected token") |}.

(** A store with a stale cache and the two current ones. *)
Definition sample_store : CacheStorage :=
  [ ("visual-mind-ai-v0.9.0", {[ "https://visual-mind.example/" := page_response ]});
    ("visual-mind-ai-v1.0.0", {[ "https://visual-mind.example/" := page_response ]});
    ("visual-mind-runtime-v1.0.0", ∅) ].

Definition clear_message : JsVal := JObj [ ("type", JStr "CLEAR_CACHE") ].

(** * The listeners that leave the caches alone *)

(** A window client as [clients.matchAll] lists it: its URL, and whether
    it has a [focus] method. *)
Record WindowClient : Type := {
  client_id : string;
  client_url : string;
  has_focus : bool
}.

(** The calls of the notificationclick listener. *)
Inductive ClientCall : Type :=
| NotificationClose
| MatchAllWindows
| ClientFocus (client : WindowClient)
| OpenWindow (url : string).

(** What the host decides at a click: the window clients there are,
    whether [self.clients.openWindow] exists, and whether focusing a
    client or opening a window fails. *)
Record ClientHost : Type := {
  windows : list WindowClient;
  can_openWindow : bool;
  focus_error : WindowClient -> option JsError;
  openWindow_error : string -> option JsError
}.

Definition settle (error : option JsError) : Settled unit :=
  match error with
  | None => Fulfilled tt
  | Some e => Rejected e
  end.

(** The [for] loop of sw.js 248-253: the first client whose URL is ['/']
    and that can be focused ends the callback; [None] is the loop
    running to its end. *)
Fixpoint focus_open_window (k : ClientHost) (clientList : list WindowClient)
  : option (Settled unit * list ClientCall) :=
  match clientList with
  | [] => None
  | client :: rest =>
      if String.eqb (client_url client) "/" && has_focus client
      then Some (settle (focus_error k client), [ClientFocus client])
      else focus_open_window k rest
  end.

(** [notificationclick] (sw.js 241-260): how the promise given to
    [event.waitUntil] settles, and the calls made. *)
Definition notificationclick_listener (k : ClientHost)
  : Settled unit * list ClientCall :=
  let after_matchAll :=
    match focus_open_window k (windows k) with
    | Some focused => focused
    | None =>
        if can_openWindow k
        then (settle (openWindow_error k "/"), [OpenWindow "/"])
        else (Fulfilled tt, [])
    end in
  (after_matchAll.1, NotificationClose :: MatchAllWindows :: after_matchAll.2).

(** [syncRecordings] (sw.js 215-219). *)
Definition syncRecordings : Settled unit := Fulfilled tt.

(** [sync] (sw.js 208-213): the promise given to [event.waitUntil], when
    the tag is the one the worker knows. *)
Definition sync_listener (tag : string) : option (Settled unit) :=
  if String.eqb tag "sync-recordings" then Some syncRecordings else None.

(** The caches of [cs] that activation keeps. *)
Definition current (cs : CacheStorage) : CacheStorage :=
  filter (fun nc => nc.1 = CACHE_NAME ∨ nc.1 = RUNTIME_CACHE) cs.

(** A host that lets the runtime cache be opened and written. *)
Definition cooperative (h : Host) : Prop :=
  open_error h RUNTIME_CACHE = None ∧
  ∀ request response, put_error h RUNTIME_CACHE request response = None.

(** The network answers with one response, and no cache can be opened. *)
Definition no_storage_host (response : Response.t) : Host :=
  {| origin := "https://visual-mind.example";
     network := fun _ => Fulfilled response;
     open_error := fun _ => Some (DOMException "SecurityError");
     put_error := fun _ _ _ => None;
     window_clients := [] |}.

(** What a no-cors request to another origin is answered with. *)
Definition opaque_response : Response.t := Response.mk 0 Opaque [] "".

(** The pages of the worker's own origin are served, and the scripts of
    the other origins come back opaque. *)
Definition cross_origin_host : Host :=
  {| origin := "https://visual-mind.example";
     network := fun request =>
       if startsWith (Request.url request) "https://visual-mind.example/"
       then Fulfilled page_response
       else Fulfilled opaque_response;
     open_error := fun _ => None;
     put_error := fun _ _ _ => None;
     window_clients := [] |}.

Definition newer_response : Response.t :=
  Response.mk 200 Basic [("content-type", "text/html")] "<html>v2</html>".

Definition root_request : Request.t :=
  Request.mk "https://visual-mind.example/" "GET" Navigate [("accept", "text/html")].

Definition lookalike_request : Request.t :=
  Request.mk "https://api.anthropic.com.visual-mind.example/track" "GET" Cors
    [("accept", "*/*")].

Definition app_window : WindowClient :=
  {| client_id := "window-1";
     client_url := "https://visual-mind.example/";
     has_focus := true |}.

(** A client whose URL reads ['/']. *)
Definition root_window : WindowClient :=
  {| client_id := "window-2"; client_url := "/"; has_focus := true |}.

Definition click_host (ws : list WindowClient) : ClientHost :=
  {| windows := ws;
     can_openWindow := true;
     focus_error := fun _ => None;
     openWindow_error := fun _ => None |}.

(** A store where only a stale cache holds the start page. *)
Definition stale_only_store : CacheStorage :=
  [ ("visual-mind-ai-v0.9.0", {[ "https://visual-mind.example/" := page_response ]});
    ("visual-mind-ai-v1.0.0", ∅) ].

(** A payload with a title and an empty body. *)
Definition titled_push : option PushMessageData :=
  Some {| json := Returned (JObj [ ("title", JStr "Copia lista");
                                   ("body", JStr "") ]) |}.

(** * Properties *)

(** A call is claimed to be in a trace that is written out: go through
    the trace and drop the entries of another kind. *)
Ltac scan_trace H :=
  repeat (apply elem_of_cons in H as [H | H]; [try discriminate H|]);
  try (by apply elem_of_nil in H).

(** A call is to be found in a trace that is written out. *)
Ltac find_in_trace :=
  repeat first [ apply list_elem_of_here | apply list_elem_of_further ].

(** ** The deny list and the interception gate *)

Lemma some_startsWith_true (u : string) (l : list string) :
  existsb (fun noCache => startsWith u noCache) l = true ↔
  ∃ noCache, noCache ∈ l ∧ startsWith u noCache = true.
Proof.
  induction l as [|x l IH]; simpl.
  - split; [discriminate | intros (y & Hy & _); inversion Hy].
  - rewrite orb_true_iff, IH. split.
    + intros [Hx | (y & Hy & Hs)].
      * exists x. split; [left | done].
      * exists y. split; [by right | done].
    + intros (y & Hy & Hs). apply elem_of_cons in Hy as [-> | Hy]; [by left |].
      right. by exists y.
Qed.

Lemma gate_denylisted (request : Request.t) :
  denylisted request →
  existsb (fun noCache => startsWith (href (Request.url request)) noCache)
    NO_CACHE_URLS = true.
Proof. intros H. by apply some_startsWith_true. Qed.

Lemma gate_not_denylisted (request : Request.t) :
  ¬ denylisted request →
  existsb (fun noCache => startsWith (href (Request.url request)) noCache)
    NO_CACHE_URLS = false.
Proof.
  intros H. apply not_true_is_false. intros Hs. apply H.
  by apply some_startsWith_true.
Qed.

Lemma gate_GET (request : Request.t) :
  Request.method request = "GET" →
  negb (String.eqb (Request.method request) "GET") = false.
Proof. intros ->. reflexivity. Qed.

Lemma gate_not_GET (request : Request.t) :
  Request.method request ≠ "GET" →
  negb (String.eqb (Request.method request) "GET") = true.
Proof.
  intros H. destruct (String.eqb_spec (Request.method request) "GET"); done.
Qed.

(** An intercepted request is answered with the network-first chain. *)
Lemma fetch_listener_intercepted (h : Host) (request : Request.t) (cs : CacheStorage) :
  Request.method request = "GET" →
  ¬ denylisted request →
  fetch_listener h request cs =
    (answer <- catch (then_ (fetch h request) (on_network_response h request))
                 (fun _ => on_network_failure request) ;;
     ret (RespondWith answer)) cs.
Proof.
  intros Hm Hd. unfold fetch_listener.
  by rewrite (gate_not_denylisted _ Hd), (gate_GET _ Hm).
Qed.

Lemma cacheable_test (response : Response.t) :
  (Response.status response =? 200)
  && negb (bool_decide (Response.type response = Opaque)) = true
  ↔ cacheable response.
Proof.
  unfold cacheable. rewrite andb_true_iff, Z.eqb_eq, negb_true_iff,
    bool_decide_eq_false. done.
Qed.

Lemma fetch_listener_fulfilled (h : Host) (request : Request.t)
    (response : Response.t) (cs : CacheStorage) :
  Request.method request = "GET" →
  ¬ denylisted request →
  network h request = Fulfilled response →
  fetch_listener h request cs =
    (RespondWith (Fulfilled response),
     store (on_network_response h request response cs),
     Fetch request :: calls (on_network_response h request response cs))
  ∧ result (on_network_response h request response cs) = Fulfilled response.
Proof.
  intros Hm Hd Hn. rewrite fetch_listener_intercepted by done.
  unfold bind, catch, then_, fetch, bind. rewrite Hn.
  unfold on_network_response, bind, resolve, ret.
  destruct (_ && _); cbn.
  - unfold detach, catch, then_, bind, caches_open, resolve, ret.
    destruct (open_error h RUNTIME_CACHE); cbn; [done|].
    unfold cache_put. destruct (put_error _ _ _ _); cbn; done.
  - done.
Qed.

(** What the [then] branch does, case by case. *)
Lemma on_network_response_run (h : Host) (request : Request.t)
    (response : Response.t) (cs : CacheStorage) :
  on_network_response h request response cs =
    if decide (cacheable response) then
      match open_error h RUNTIME_CACHE with
      | Some _ => (Fulfilled response, cs, [CachesOpen RUNTIME_CACHE])
      | None =>
          (Fulfilled response,
           match put_error h RUNTIME_CACHE request (clone response) with
           | None =>
               storage_put (storage_open cs RUNTIME_CACHE) RUNTIME_CACHE
                 (Request.url request) (clone response)
           | Some _ => storage_open cs RUNTIME_CACHE
           end,
           [CachesOpen RUNTIME_CACHE;
            CachePut RUNTIME_CACHE request (clone response)])
      end
    else (Fulfilled response, cs, []).
Proof.
  unfold on_network_response, bind, resolve, ret.
  destruct (decide (cacheable response)) as [Hc | Hc].
  - apply cacheable_test in Hc. rewrite Hc.
    unfold detach, catch, then_, bind, caches_open, resolve, ret.
    destruct (open_error h RUNTIME_CACHE); cbn; [done|].
    unfold cache_put. destruct (put_error _ _ _ _); cbn; done.
  - destruct (_ && _) eqn:Ht; [by apply cacheable_test in Ht | done].
Qed.

(** What the [catch] branch does, case by case. *)
Lemma on_network_failure_run (request : Request.t) (cs : CacheStorage) :
  on_network_failure request cs =
    (match storage_match cs (Request.url request) with
     | Some cached => Fulfilled cached
     | None =>
         match headers_get (Request.headers request) "accept" with
         | None =>
             Rejected (TypeError "Cannot read properties of null (reading 'includes')")
         | Some accept =>
             Fulfilled (if includes accept "text/html"
                        then offline_page else service_unavailable)
         end
     end, cs, [CachesMatch request]).
Proof.
  unfold on_network_failure, then_, bind, caches_match, resolve, reject, ret.
  destruct (storage_match cs (Request.url request)); [done|].
  destruct (headers_get _ _); [|done].
  by destruct (includes _ _).
Qed.

Lemma fetch_listener_rejected (h : Host) (request : Request.t)
    (e : JsError) (cs : CacheStorage) :
  Request.method request = "GET" →
  ¬ denylisted request →
  network h request = Rejected e →
  fetch_listener h request cs =
    (RespondWith (result (on_network_failure request cs)), cs,
     [Fetch request; CachesMatch request]).
Proof.
  intros Hm Hd Hn. rewrite fetch_listener_intercepted by done.
  unfold bind at 1. unfold catch, bind at 1. unfold then_, bind at 1.
  unfold fetch at 1. rewrite Hn. unfold reject, ret at 1.
  rewrite on_network_failure_run. done.
Qed.

(** ** The cache store: lookups after open and put *)

Lemma storage_has_true (cs : CacheStorage) (name : string) :
  storage_has cs name = true ↔ is_Some (storage_lookup cs name).
Proof. unfold storage_has. by rewrite bool_decide_eq_true. Qed.

Lemma storage_lookup_app (cs cs' : CacheStorage) (name : string) :
  storage_lookup (cs ++ cs') name =
    match storage_lookup cs name with
    | Some c => Some c
    | None => storage_lookup cs' name
    end.
Proof.
  induction cs as [|[n c] cs IH]; simpl; [done|].
  by destruct (String.eqb n name).
Qed.

Lemma storage_lookup_open (cs : CacheStorage) (name name' : string) :
  storage_lookup (storage_open cs name) name' =
    match storage_lookup cs name' with
    | Some c => Some c
    | None => if String.eqb name name' then Some ∅ else None
    end.
Proof.
  unfold storage_open. destruct (storage_has cs name) eqn:Hh.
  - apply storage_has_true in Hh as [c Hc].
    destruct (storage_lookup cs name') eqn:Hl; [done|].
    destruct (String.eqb_spec name name') as [-> | _]; [congruence | done].
  - rewrite storage_lookup_app. simpl. done.
Qed.

Lemma storage_lookup_put (cs : CacheStorage) (name name' url : string)
    (r : Response.t) :
  storage_lookup (storage_put cs name url r) name' =
    if String.eqb name name'
    then <[url := r]> <$> storage_lookup cs name'
    else storage_lookup cs name'.
Proof.
  induction cs as [|[n c] cs IH]; simpl.
  - by destruct (String.eqb name name').
  - destruct (String.eqb_spec n name) as [-> | Hn]; simpl.
    + by destruct (String.eqb name name').
    + rewrite IH. destruct (String.eqb_spec n name') as [-> | Hn'].
      * destruct (String.eqb_spec name name'); [congruence | done].
      * done.
Qed.

(** After [caches.open(name)] and a [put] that the host lets through,
    the entry is in the cache of that name. *)
Lemma storage_put_open_lookup (cs : CacheStorage) (name url : string)
    (r : Response.t) :
  ∃ c, storage_lookup (storage_put (storage_open cs name) name url r) name = Some c
       ∧ c !! url = Some r.
Proof.
  rewrite storage_lookup_put, String.eqb_refl, storage_lookup_open,
    String.eqb_refl.
  destruct (storage_lookup cs name) as [c|]; simpl;
    eexists; (split; [done | apply lookup_insert_eq]).
Qed.

Lemma not_denylisted_test (request : Request.t) :
  existsb (fun noCache => startsWith (href (Request.url request)) noCache)
    NO_CACHE_URLS = false →
  ¬ denylisted request.
Proof.
  intros Hf Hd. apply gate_denylisted in Hd. congruence.
Qed.

(** ** The fetch listener *)

(** C5: a fetch event whose request URL starts with an entry of the deny
    list, whose one entry is https://api.anthropic.com, is not
    intercepted: the listener returns without a response, makes no host
    call at all (no fetch, no cache read, no cache write) and leaves the
    cache store as it was. *)
Theorem fetch_denylisted_not_intercepted (h : Host) (request : Request.t)
    (cs : CacheStorage) :
  denylisted request →
  startsWith (Request.url request) "https://api.anthropic.com" = true ∧
  fetch_listener h request cs = (NotIntercepted, cs, []).
Proof.
  intros Hd. split.
  - destruct Hd as (noCache & Hin & Hs).
    unfold NO_CACHE_URLS in Hin. apply list_elem_of_singleton in Hin.
    by subst noCache.
  - unfold fetch_listener. by rewrite gate_denylisted.
Qed.

Lemma fetch_denylisted_not_intercepted_witness :
  denylisted api_request ∧
  fetch_listener (online_host page_response) api_request [] = (NotIntercepted, [], []).
Proof.
  assert (Hd : denylisted api_request).
  { exists "https://api.anthropic.com". split; [|reflexivity].
    apply list_elem_of_singleton. reflexivity. }
  split; [exact Hd|].
  exact (proj2 (fetch_denylisted_not_intercepted
                  (online_host page_response) api_request [] Hd)).
Defined.

(** C10: a fetch event whose request method is not GET is not
    intercepted: the listener returns before [respondWith], makes no
    host call (no cache read, no cache write) and leaves the cache store
    as it was. *)
Theorem fetch_non_GET_not_intercepted (h : Host) (request : Request.t)
    (cs : CacheStorage) :
  Request.method request ≠ "GET" →
  fetch_listener h request cs = (NotIntercepted, cs, []).
Proof.
  intros Hm. unfold fetch_listener.
  destruct (existsb _ _); [done|].
  by rewrite gate_not_GET.
Qed.

Lemma fetch_non_GET_not_intercepted_witness :
  Request.method upload_request ≠ "GET" ∧
  fetch_listener (online_host page_response) upload_request [] = (NotIntercepted, [], []).
Proof.
  assert (Hm : Request.method upload_request ≠ "GET") by (simpl; discriminate).
  split; [exact Hm|].
  exact (fetch_non_GET_not_intercepted (online_host page_response) upload_request [] Hm).
Defined.

(** C1: for a GET request whose URL starts with no entry of the deny
    list, the listener first calls the network; the cache is looked up
    only when that fetch rejects, and then right after it; a cached
    match is the answer; a response built by the worker is the answer
    only when the fetch rejected and the lookup found nothing. *)
Theorem fetch_network_first (h : Host) (request : Request.t) (cs : CacheStorage) :
  Request.method request = "GET" →
  ¬ denylisted request →
  let r := fetch_listener h request cs in
  (∃ rest, calls r = Fetch request :: rest) ∧
  match network h request with
  | Fulfilled response =>
      result r = RespondWith (Fulfilled response) ∧
      ∀ q, CachesMatch q ∉ calls r
  | Rejected _ =>
      calls r = [Fetch request; CachesMatch request] ∧
      match storage_match cs (Request.url request) with
      | Some cached => result r = RespondWith (Fulfilled cached)
      | None =>
          (∀ response,
             result r = RespondWith (Fulfilled response) → synthesized response) ∧
          (∀ accept,
             headers_get (Request.headers request) "accept" = Some accept →
             ∃ response,
               result r = RespondWith (Fulfilled response) ∧ synthesized response)
      end
  end.
Proof.
  intros Hm Hd r. subst r.
  destruct (network h request) as [response | e] eqn:Hn.
  - destruct (fetch_listener_fulfilled h request response cs Hm Hd Hn) as [-> _].
    split; [by eexists|]. split; [done|].
    intros q Hq. unfold calls in Hq. simpl in Hq.
    rewrite on_network_response_run in Hq.
    destruct (decide (cacheable response)); [|scan_trace Hq].
    destruct (open_error h RUNTIME_CACHE); simpl in Hq; scan_trace Hq.
  - rewrite (fetch_listener_rejected h request e cs Hm Hd Hn).
    split; [by eexists|]. split; [done|].
    rewrite on_network_failure_run. unfold result, calls. simpl.
    destruct (storage_match cs (Request.url request)) as [cached|]; [done|].
    split.
    + intros response Hr. destruct (headers_get _ _) as [accept|]; [|discriminate].
      injection Hr as <-. unfold synthesized.
      destruct (includes accept "text/html"); [by left | by right].
    + intros accept ->. eexists. split; [done|]. unfold synthesized.
      destruct (includes accept "text/html"); [by left | by right].
Qed.

Lemma fetch_network_first_witness :
  Request.method page_request = "GET" ∧
  ¬ denylisted page_request ∧
  calls (fetch_listener offline_host page_request []) =
    [Fetch page_request; CachesMatch page_request].
Proof.
  assert (Hm : Request.method page_request = "GET") by reflexivity.
  assert (Hd : ¬ denylisted page_request)
    by (apply not_denylisted_test; reflexivity).
  split; [exact Hm|]. split; [exact Hd|].
  exact (proj1 (proj2 (fetch_network_first offline_host page_request [] Hm Hd))).
Defined.

(** C8: for an intercepted GET request that the network answers with a
    200 response that is not opaque, the listener answers with that same
    response whatever becomes of the cache write: the host may refuse to
    open the runtime cache or refuse the entry. *)
Theorem fetch_returns_network_response (h : Host) (request : Request.t)
    (response : Response.t) (cs : CacheStorage) :
  Request.method request = "GET" →
  ¬ denylisted request →
  network h request = Fulfilled response →
  Response.status response = 200 →
  Response.type response ≠ Opaque →
  result (fetch_listener h request cs) = RespondWith (Fulfilled response).
Proof.
  intros Hm Hd Hn _ _.
  by destruct (fetch_listener_fulfilled h request response cs Hm Hd Hn) as [-> _].
Qed.

Lemma fetch_returns_network_response_witness :
  Request.method page_request = "GET" ∧
  ¬ denylisted page_request ∧
  put_error (full_disk_host page_response) RUNTIME_CACHE page_request
    (clone page_response) = Some (DOMException "QuotaExceededError") ∧
  result (fetch_listener (full_disk_host page_response) page_request []) =
    RespondWith (Fulfilled page_response).
Proof.
  assert (Hm : Request.method page_request = "GET") by reflexivity.
  assert (Hd : ¬ denylisted page_request)
    by (apply not_denylisted_test; reflexivity).
  split; [exact Hm|]. split; [exact Hd|]. split; [reflexivity|].
  apply (fetch_returns_network_response (full_disk_host page_response)
           page_request page_response [] Hm Hd); [reflexivity | reflexivity |].
  simpl. discriminate.
Defined.

(** C3: for an intercepted GET request that the network answers, the
    worker starts a write into the runtime cache
    visual-mind-runtime-v1.0.0 exactly when the response has status 200
    and is not opaque; what it writes is the clone of that response
    under that request, and with a host that lets the write through the
    entry is in the runtime cache afterwards.  A response of any other
    status, or an opaque one, leads to no cache call at all and leaves
    every cache as it was. *)
Theorem fetch_mirrors_cacheable_responses (h : Host) (request : Request.t)
    (response : Response.t) (cs : CacheStorage) :
  Request.method request = "GET" →
  ¬ denylisted request →
  network h request = Fulfilled response →
  let r := fetch_listener h request cs in
  (CachesOpen "visual-mind-runtime-v1.0.0" ∈ calls r ↔
     Response.status response = 200 ∧ Response.type response ≠ Opaque) ∧
  (∀ cache q written,
     CachePut cache q written ∈ calls r →
     cache = "visual-mind-runtime-v1.0.0" ∧ q = request ∧
     written = clone response ∧
     Response.status response = 200 ∧ Response.type response ≠ Opaque) ∧
  (Response.status response = 200 ∧ Response.type response ≠ Opaque →
   open_error h RUNTIME_CACHE = None →
   CachePut "visual-mind-runtime-v1.0.0" request (clone response) ∈ calls r ∧
   (put_error h RUNTIME_CACHE request (clone response) = None →
    ∃ c, storage_lookup (store r) "visual-mind-runtime-v1.0.0" = Some c ∧
         c !! Request.url request = Some response)) ∧
  (¬ (Response.status response = 200 ∧ Response.type response ≠ Opaque) →
   calls r = [Fetch request] ∧ store r = cs).
Proof.
  intros Hm Hd Hn r. subst r.
  destruct (fetch_listener_fulfilled h request response cs Hm Hd Hn) as [-> _].
  unfold calls, store. simpl. rewrite on_network_response_run.
  fold (cacheable response).
  destruct (decide (cacheable response)) as [Hc | Hc].
  - destruct (open_error h RUNTIME_CACHE) as [e|] eqn:Ho; simpl.
    + split; [split; [done | intros _; find_in_trace]|].
      split; [|split; [done | done]].
      intros cache q written Hq. scan_trace Hq.
    + split; [split; [done | intros _; find_in_trace]|].
      split; [|split; [|done]].
      * intros cache q written Hq. scan_trace Hq.
        injection Hq as -> -> ->. done.
      * intros _ _. split; [find_in_trace|].
        intros ->. apply storage_put_open_lookup.
  - simpl. split; [|split; [|split; [done | done]]].
    + split; [|done]. intros Hq. scan_trace Hq.
    + intros cache q written Hq. scan_trace Hq.
Qed.

Lemma fetch_mirrors_cacheable_responses_witness :
  Request.method page_request = "GET" ∧
  ¬ denylisted page_request ∧
  network (online_host page_response) page_request = Fulfilled page_response ∧
  CachePut "visual-mind-runtime-v1.0.0" page_request (clone page_response)
    ∈ calls (fetch_listener (online_host page_response) page_request []).
Proof.
  assert (Hm : Request.method page_request = "GET") by reflexivity.
  assert (Hd : ¬ denylisted page_request)
    by (apply not_denylisted_test; reflexivity).
  assert (Hn : network (online_host page_response) page_request
               = Fulfilled page_response) by reflexivity.
  split; [exact Hm|]. split; [exact Hd|]. split; [exact Hn|].
  destruct (fetch_mirrors_cacheable_responses (online_host page_response)
              page_request page_response [] Hm Hd Hn) as (_ & _ & Hput & _).
  apply Hput; [|reflexivity].
  split; [reflexivity | simpl; discriminate].
Defined.

(** With an Accept header on the request, the network down and nothing
    cached, the answer is the offline page when the header mentions
    text/html and the 503 response otherwise. *)
Lemma fetch_offline_with_accept (h : Host) (request : Request.t) (e : JsError)
    (accept : string) (cs : CacheStorage) :
  Request.method request = "GET" →
  ¬ denylisted request →
  network h request = Rejected e →
  storage_match cs (Request.url request) = None →
  headers_get (Request.headers request) "accept" = Some accept →
  result (fetch_listener h request cs) =
    RespondWith (Fulfilled (if includes accept "text/html"
                            then offline_page else service_unavailable))
  ∧ Response.status service_unavailable = 503
  ∧ Response.body service_unavailable = "Service Unavailable"
  ∧ Response.status offline_page = 200
  ∧ Response.body offline_page = OFFLINE_HTML.
Proof.
  intros Hm Hd Hn Hc Ha.
  rewrite (fetch_listener_rejected h request e cs Hm Hd Hn).
  rewrite on_network_failure_run, Hc, Ha. done.
Qed.

(** C2, where the code falls short of it: a GET request without an
    Accept header, with the network down and nothing cached.
    [request.headers.get('accept')] is [null] there, reading [includes]
    of it throws inside the promise chain, and the promise handed to
    [respondWith] rejects: the answer is neither the offline page nor
    the 503 response. *)
Theorem fetch_offline_without_accept_rejects :
  Request.method bare_request = "GET" ∧
  ¬ denylisted bare_request ∧
  network offline_host bare_request = Rejected (TypeError "Failed to fetch") ∧
  storage_match [] (Request.url bare_request) = None ∧
  headers_get (Request.headers bare_request) "accept" = None ∧
  fetch_listener offline_host bare_request [] =
    (RespondWith
       (Rejected (TypeError "Cannot read properties of null (reading 'includes')")),
     [], [Fetch bare_request; CachesMatch bare_request]).
Proof.
  assert (Hm : Request.method bare_request = "GET") by reflexivity.
  assert (Hd : ¬ denylisted bare_request)
    by (apply not_denylisted_test; reflexivity).
  repeat (split; [done|]).
  rewrite (fetch_listener_rejected offline_host bare_request
             (TypeError "Failed to fetch") [] Hm Hd eq_refl).
  by rewrite on_network_failure_run.
Qed.

(** ** Activation *)

Lemma filter_all {A} (P : A → Prop) `{!∀ x, Decision (P x)} (l : list A) :
  (∀ x, P x) → filter P l = l.
Proof.
  intros HP. induction l as [|x l IH]; [done|].
  by rewrite filter_cons_True, IH.
Qed.

(** Deleting a list of caches one after the other: each delete is
    called, none rejects, and the caches of those names are gone. *)
Lemma delete_all_run (names : list string) (cs : CacheStorage) :
  ∃ flags,
    Promise_all (map (fun cacheName => caches_delete cacheName) names) cs =
      (Fulfilled flags, filter (fun nc => nc.1 ∉ names) cs, map CachesDelete names).
Proof.
  revert cs. induction names as [|n names IH]; intros cs.
  - exists []. simpl. unfold resolve, ret. f_equal. f_equal.
    symmetry. apply filter_all. intros x. apply not_elem_of_nil.
  - simpl. unfold bind at 1. unfold caches_delete at 1. unfold bind at 1.
    destruct (IH (storage_delete cs n)) as [flags ->].
    eexists. unfold ret. f_equal; [f_equal|].
    + unfold storage_delete.
      etrans; [apply list_filter_filter|].
      apply list_filter_iff. intros [n' c]. simpl.
      rewrite not_elem_of_cons. tauto.
    + simpl. by rewrite app_nil_r.
Qed.

Lemma filter_iff_in {A} (P1 P2 : A → Prop)
    `{!∀ x, Decision (P1 x), !∀ x, Decision (P2 x)} (l : list A) :
  (∀ x, x ∈ l → P1 x ↔ P2 x) → filter P1 l = filter P2 l.
Proof.
  induction l as [|a l IH]; intros HP; [done|].
  rewrite !filter_cons.
  rewrite IH by (intros x Hx; apply HP; by right).
  apply decide_ext. apply HP. by left.
Qed.

Lemma storage_lookup_filter (P : string → Prop) `{!∀ x, Decision (P x)}
    (cs : CacheStorage) (name : string) :
  storage_lookup (filter (fun nc => P nc.1) cs) name =
    if decide (P name) then storage_lookup cs name else None.
Proof.
  induction cs as [|[n c] cs IH].
  - by destruct (decide (P name)).
  - rewrite filter_cons. simpl. destruct (decide (P n)) as [Hn | Hn]; simpl.
    + destruct (String.eqb_spec n name) as [-> | Hne]; [|done].
      by destruct (decide (P name)).
    + rewrite IH. destruct (String.eqb_spec n name) as [-> | Hne]; [|done].
      by destruct (decide (P name)).
Qed.

Lemma activate_listener_run (cs : CacheStorage) :
  activate_listener cs =
    (Fulfilled tt,
     filter (fun nc => nc.1 = CACHE_NAME ∨ nc.1 = RUNTIME_CACHE) cs,
     CachesKeys ::
       map CachesDelete
         (filter (fun cacheName => cacheName ≠ CACHE_NAME ∧ cacheName ≠ RUNTIME_CACHE)
            (cache_names cs))
       ++ [ClientsClaim]).
Proof.
  unfold activate_listener.
  unfold then_ at 1. unfold bind at 1. unfold then_ at 1. unfold bind at 1.
  unfold caches_keys at 1.
  destruct (delete_all_run
              (filter (fun cacheName => cacheName ≠ CACHE_NAME ∧ cacheName ≠ RUNTIME_CACHE)
                 (cache_names cs)) cs) as [flags ->].
  unfold clients_claim. f_equal. f_equal.
  apply filter_iff_in. intros [n c] Hin. simpl.
  rewrite list_elem_of_filter. unfold cache_names.
  assert (Hn : n ∈ cs.*1) by (by apply (list_elem_of_fmap_2 fst) in Hin).
  destruct (decide (n = CACHE_NAME)) as [H1 | H1];
    destruct (decide (n = RUNTIME_CACHE)) as [H2 | H2]; tauto.
Qed.

(** C4: on activate, the caches that are deleted are exactly the ones
    whose name is neither visual-mind-ai-v1.0.0 nor
    visual-mind-runtime-v1.0.0; afterwards no cache of another name is
    left, and the two current caches are there as they were. *)
Theorem activate_deletes_stale_caches (cs : CacheStorage) :
  let r := activate_listener cs in
  (∀ name,
     CachesDelete name ∈ calls r ↔
     name ∈ cache_names cs ∧
     name ≠ "visual-mind-ai-v1.0.0" ∧ name ≠ "visual-mind-runtime-v1.0.0") ∧
  (∀ name,
     storage_lookup (store r) name =
       if decide (name = "visual-mind-ai-v1.0.0" ∨
                  name = "visual-mind-runtime-v1.0.0")
       then storage_lookup cs name else None) ∧
  store r =
    filter (fun nc => nc.1 = "visual-mind-ai-v1.0.0" ∨
                      nc.1 = "visual-mind-runtime-v1.0.0") cs.
Proof.
  intros r. subst r. rewrite activate_listener_run. unfold calls, store. simpl.
  split; [|split; [|done]].
  - intros name. rewrite elem_of_cons, elem_of_app, list_elem_of_fmap.
    split.
    + intros [Hk | [(n & Hn & Hin) | Hc]]; [discriminate | |].
      * injection Hn as ->. apply list_elem_of_filter in Hin. tauto.
      * apply list_elem_of_singleton in Hc. discriminate.
    + intros (Hin & H1 & H2). right. left. exists name. split; [done|].
      apply list_elem_of_filter. done.
  - intros name.
    exact (storage_lookup_filter
             (fun n => n = CACHE_NAME ∨ n = RUNTIME_CACHE) cs name).
Qed.

(** ** Messages *)

(** The test of the message listener never throws, and it holds exactly
    for an object of that type. *)
Lemma data_type_is_spec (data : JsVal) (lit : string) :
  ∃ b, data_type_is data lit = Returned b ∧ (b = true ↔ has_type data lit).
Proof.
  unfold data_type_is, has_type.
  destruct data as [| |b|n| |s|items|props]; simpl;
    try (exists false; split; [done|];
         split; [discriminate | by intros (props' & Heq & _)]).
  - destruct b; simpl; exists false; (split; [done|]);
      (split; [discriminate | by intros (props' & Heq & _)]).
  - destruct (negb (n =? 0)); simpl; exists false; (split; [done|]);
      (split; [discriminate | by intros (props' & Heq & _)]).
  - destruct (negb (String.eqb s "")); simpl; exists false; (split; [done|]);
      (split; [discriminate | by intros (props' & Heq & _)]).
  - eexists. split; [done|]. split.
    + intros Hb. exists props. split; [done|].
      destruct (own_prop props "type") as [v|]; simpl in Hb; [|discriminate].
      destruct v; simpl in Hb; try discriminate.
      apply String.eqb_eq in Hb. by subst.
    + intros (props' & Heq & Hp). injection Heq as <-. rewrite Hp. simpl.
      apply String.eqb_refl.
Qed.

Lemma has_type_functional (data : JsVal) (lit lit' : string) :
  has_type data lit → has_type data lit' → lit = lit'.
Proof.
  intros (p & -> & Hp) (p' & Heq & Hp'). injection Heq as <-. congruence.
Qed.

Lemma filter_none {A} (P : A → Prop) `{!∀ x, Decision (P x)} (l : list A) :
  (∀ x, x ∈ l → ¬ P x) → filter P l = [].
Proof.
  induction l as [|a l IH]; intros HP; [done|].
  rewrite filter_cons_False by (apply HP; by left).
  apply IH. intros x Hx. apply HP. by right.
Qed.

Lemma forEach_postMessage_run (clients : list string) (message : JsVal)
    (cs : CacheStorage) :
  forEach clients (fun client => postMessage client message) cs =
    (tt, cs, map (fun client => PostMessage client message) clients).
Proof.
  induction clients as [|c clients IH]; [done|].
  simpl. unfold bind. unfold postMessage at 1. by rewrite IH.
Qed.

Lemma clear_caches_run (h : Host) (cs : CacheStorage) :
  clear_caches h cs =
    (Fulfilled tt, [],
     CachesKeys :: map CachesDelete (cache_names cs) ++
     ClientsMatchAll ::
     map (fun client => PostMessage client CACHE_CLEARED) (window_clients h)).
Proof.
  unfold clear_caches.
  unfold then_ at 1. unfold bind at 1. unfold then_ at 1. unfold bind at 1.
  unfold then_ at 1. unfold bind at 1. unfold caches_keys at 1.
  destruct (delete_all_run (cache_names cs) cs) as [flags ->].
  unfold clients_matchAll at 1. unfold bind at 1.
  rewrite forEach_postMessage_run. unfold resolve, ret.
  f_equal; [f_equal|].
  - apply filter_none. intros [n c] Hin Hn. apply Hn.
    by apply (list_elem_of_fmap_2 fst) in Hin.
  - simpl. rewrite app_nil_r. by rewrite <- app_assoc.
Qed.

(** C6: the message listener knows two commands.  Data of type
    SKIP_WAITING makes it call [skipWaiting] and nothing else; data of
    type CLEAR_CACHE makes it delete every cache there is, the two
    current ones included, so that no cache is left; on any other
    message it makes no host call and the cache store stays as it was. *)
Theorem message_commands (h : Host) (data : JsVal) (cs : CacheStorage) :
  let r := message_listener h data cs in
  (has_type data "SKIP_WAITING" → r = (Returned None, cs, [SkipWaiting])) ∧
  (has_type data "CLEAR_CACHE" →
   result r = Returned (Some (Fulfilled tt)) ∧
   store r = [] ∧
   (∀ name, name ∈ cache_names cs → CachesDelete name ∈ calls r) ∧
   SkipWaiting ∉ calls r) ∧
  (¬ has_type data "SKIP_WAITING" → ¬ has_type data "CLEAR_CACHE" →
   r = (Returned None, cs, [])).
Proof.
  intros r. subst r. unfold message_listener.
  destruct (data_type_is_spec data "SKIP_WAITING") as (b1 & -> & H1).
  destruct (data_type_is_spec data "CLEAR_CACHE") as (b2 & -> & H2).
  destruct b1, b2.
  - assert (Hs : has_type data "SKIP_WAITING") by by apply H1.
    assert (Hc : has_type data "CLEAR_CACHE") by by apply H2.
    by pose proof (has_type_functional _ _ _ Hs Hc).
  - unfold detach, bind, skipWaiting, ret. simpl.
    split; [done|]. split; [|intros Hn; exfalso; by apply Hn, H1].
    intros Hc. apply H2 in Hc. discriminate.
  - unfold bind, ret. simpl. rewrite clear_caches_run.
    unfold result, store, calls. simpl.
    split; [intros Hs; apply H1 in Hs; discriminate|].
    split; [|intros _ Hn; exfalso; by apply Hn, H2].
    intros _. split; [done|]. split; [done|]. split.
    + intros name Hin. apply elem_of_cons. right.
      rewrite app_nil_r. apply elem_of_app. left.
      by apply list_elem_of_fmap_2.
    + rewrite app_nil_r. intros Hin.
      apply elem_of_cons in Hin as [Hin | Hin]; [discriminate|].
      apply elem_of_app in Hin as [Hin | Hin].
      * apply list_elem_of_fmap in Hin as (n & Hn & _). discriminate.
      * apply elem_of_cons in Hin as [Hin | Hin]; [discriminate|].
        apply list_elem_of_fmap in Hin as (c & Hc & _). discriminate.
  - unfold ret. simpl.
    split; [intros Hs; apply H1 in Hs; discriminate|].
    split; [intros Hc; apply H2 in Hc; discriminate | done].
Qed.

Lemma message_commands_witness :
  has_type clear_message "CLEAR_CACHE" ∧
  store (message_listener offline_host clear_message sample_store) = [] ∧
  CachesDelete "visual-mind-ai-v1.0.0"
    ∈ calls (message_listener offline_host clear_message sample_store).
Proof.
  assert (Ht : has_type clear_message "CLEAR_CACHE").
  { exists [ ("type", JStr "CLEAR_CACHE") ]. split; reflexivity. }
  split; [exact Ht|].
  destruct (message_commands offline_host clear_message sample_store)
    as (_ & Hclear & _).
  destruct (Hclear Ht) as (_ & Hstore & Hdel & _).
  split; [exact Hstore|].
  apply Hdel. unfold sample_store, cache_names. simpl. find_in_trace.
Defined.

(** ** Installation *)

Lemma install_listener_run (h : Host) (cs : CacheStorage) :
  open_error h CACHE_NAME = None →
  install_listener h cs =
    (Fulfilled tt,
     store (cache_addAll h CACHE_NAME (precache_requests h)
              (storage_open cs CACHE_NAME)),
     [CachesOpen CACHE_NAME; CacheAddAll CACHE_NAME (precache_requests h);
      SkipWaiting]).
Proof.
  intros Ho. unfold install_listener.
  unfold then_ at 1. unfold bind at 1. unfold then_ at 1. unfold bind at 1.
  unfold caches_open at 1. rewrite Ho.
  unfold catch, bind. fold (precache_requests h).
  unfold cache_addAll. destruct (fetch_all h (precache_requests h)); done.
Qed.

Lemma fetch_all_urls (h : Host) (requests : list Request.t)
    (entries : list (string * Response.t)) :
  fetch_all h requests = Some entries →
  entries.*1 = map Request.url requests.
Proof.
  revert entries. induction requests as [|q requests IH]; intros entries; simpl.
  - by intros [= <-].
  - destruct (network h q) as [resp|]; [|discriminate].
    destruct (ok_status resp); [|discriminate].
    destruct (fetch_all h requests) as [rest|]; [|discriminate].
    intros [= <-]. simpl. f_equal. by apply IH.
Qed.

Lemma fold_put_lookup (name : string) (entries : list (string * Response.t))
    (cs : CacheStorage) (c : gmap string Response.t) :
  storage_lookup cs name = Some c →
  ∃ c',
    storage_lookup
      (fold_left (fun s e => storage_put s name e.1 e.2) entries cs) name
      = Some c' ∧
    ∀ u, u ∈ entries.*1 ∨ is_Some (c !! u) → is_Some (c' !! u).
Proof.
  revert cs c. induction entries as [|[u0 r0] entries IH]; intros cs c Hc; simpl.
  - exists c. split; [done|]. intros u [Hu | Hu]; [by apply elem_of_nil in Hu | done].
  - destruct (IH (storage_put cs name u0 r0) (<[u0 := r0]> c)) as (c' & Hc' & Hin).
    { by rewrite storage_lookup_put, String.eqb_refl, Hc. }
    exists c'. split; [done|]. intros u [Hu | Hu]; apply Hin.
    + apply elem_of_cons in Hu as [-> | Hu]; [right | by left].
      rewrite lookup_insert_eq. by eexists.
    + right. destruct (decide (u0 = u)) as [-> | Hne].
      * rewrite lookup_insert_eq. by eexists.
      * by rewrite lookup_insert_ne.
Qed.

Lemma precache_request_urls (h : Host) :
  map Request.url (precache_requests h) =
    [ origin h +:+ "/";
      origin h +:+ "/visual-mind-ai-pwa.html";
      origin h +:+ "/index.html";
      "https://cdn.tailwindcss.com/";
      "https://unpkg.com/react@18/umd/react.production.min.js";
      "https://unpkg.com/react-dom@18/umd/react-dom.production.min.js";
      "https://unpkg.com/@babel/standalone/babel.min.js" ].
Proof. reflexivity. Qed.

(** C7: on install the worker opens visual-mind-ai-v1.0.0 and hands
    [addAll] the no-cors requests for the fixed precache list, whose
    URLs are the entries of the list resolved against the worker's URL
    (the three pages under the worker's origin, the four scripts at
    their own); every one of those URLs has an entry in that cache when
    the bulk fetch resolves.  Whether the bulk fetch resolves or
    rejects, [skipWaiting] is called next and the promise the
    installation waits for is fulfilled.  When the bulk fetch rejects,
    nothing was stored. *)
Theorem install_survives_precache_failure (h : Host) (cs : CacheStorage) :
  open_error h CACHE_NAME = None →
  let r := install_listener h cs in
  let requests :=
    map (fun url => new_Request (origin h) url NoCors) PRECACHE_URLS in
  let bulk := cache_addAll h CACHE_NAME requests (storage_open cs CACHE_NAME) in
  map Request.url requests =
    [ origin h +:+ "/";
      origin h +:+ "/visual-mind-ai-pwa.html";
      origin h +:+ "/index.html";
      "https://cdn.tailwindcss.com/";
      "https://unpkg.com/react@18/umd/react.production.min.js";
      "https://unpkg.com/react-dom@18/umd/react-dom.production.min.js";
      "https://unpkg.com/@babel/standalone/babel.min.js" ] ∧
  calls r = [CachesOpen "visual-mind-ai-v1.0.0";
             CacheAddAll "visual-mind-ai-v1.0.0" requests;
             SkipWaiting] ∧
  result r = Fulfilled tt ∧
  (result bulk = Fulfilled tt →
   ∃ c, storage_lookup (store r) "visual-mind-ai-v1.0.0" = Some c ∧
        ∀ request, request ∈ requests → is_Some (c !! Request.url request)) ∧
  (∀ e,
     result bulk = Rejected e →
     store r = storage_open cs CACHE_NAME ∧
     SkipWaiting ∈ calls r ∧ result r = Fulfilled tt).
Proof.
  intros Ho r requests bulk. subst r requests bulk.
  rewrite (install_listener_run h cs Ho). fold (precache_requests h).
  unfold calls, result, store. simpl.
  split; [apply precache_request_urls|].
  split; [done|]. split; [done|]. split.
  - unfold cache_addAll.
    destruct (fetch_all h (precache_requests h)) as [entries|] eqn:Hf;
      [|discriminate].
    intros _. simpl.
    assert (Hopen : is_Some (storage_lookup (storage_open cs CACHE_NAME) CACHE_NAME)).
    { rewrite storage_lookup_open, String.eqb_refl.
      destruct (storage_lookup cs CACHE_NAME); by eexists. }
    destruct Hopen as [c0 Hc0].
    destruct (fold_put_lookup CACHE_NAME entries _ c0 Hc0) as (c & Hc & Hin).
    exists c. split; [exact Hc|]. intros request Hrequest. apply Hin. left.
    rewrite (fetch_all_urls h _ _ Hf).
    by apply (list_elem_of_fmap_2 Request.url).
  - intros e He. split; [|split; [|done]].
    + unfold cache_addAll in *.
      destruct (fetch_all h (precache_requests h)); [discriminate | done].
    + find_in_trace.
Qed.

Lemma install_survives_precache_failure_witness :
  open_error offline_host CACHE_NAME = None ∧
  result (cache_addAll offline_host CACHE_NAME (precache_requests offline_host)
            (storage_open [] CACHE_NAME)) = Rejected (TypeError "Request failed") ∧
  map Request.url (precache_requests offline_host) =
    [ "https://visual-mind.example/";
      "https://visual-mind.example/visual-mind-ai-pwa.html";
      "https://visual-mind.example/index.html";
      "https://cdn.tailwindcss.com/";
      "https://unpkg.com/react@18/umd/react.production.min.js";
      "https://unpkg.com/react-dom@18/umd/react-dom.production.min.js";
      "https://unpkg.com/@babel/standalone/babel.min.js" ] ∧
  SkipWaiting ∈ calls (install_listener offline_host []) ∧
  result (install_listener offline_host []) = Fulfilled tt.
Proof.
  assert (Ho : open_error offline_host CACHE_NAME = None) by reflexivity.
  assert (Ha : result (cache_addAll offline_host CACHE_NAME
                         (precache_requests offline_host)
                         (storage_open [] CACHE_NAME))
               = Rejected (TypeError "Request failed")) by reflexivity.
  split; [exact Ho|]. split; [exact Ha|].
  destruct (install_survives_precache_failure offline_host [] Ho)
    as (Hurls & _ & _ & _ & H).
  split; [exact Hurls|].
  exact (proj2 (H _ Ha)).
Defined.

(** ** Push *)

Lemma member_field (data : JsVal) (k : string) :
  data ≠ JNull → data ≠ JUndefined →
  member data k = Returned (default JUndefined (payload_field data k)).
Proof. intros Hn Hu. by destruct data. Qed.

Lemma js_or_field (data : JsVal) (k : string) (d : JsVal) :
  js_or (default JUndefined (payload_field data k)) d = field_or data k d.
Proof.
  unfold field_or, js_or. by destruct (payload_field data k).
Qed.

(** C9, amended: for a push event whose payload is absent, or parses to
    a JSON value other than null, the listener calls [showNotification]
    exactly once; title, body, tag, requireInteraction and data are each
    taken from the payload when the payload has the field with a truthy
    value, and are the defaults Visual Mind AI, Nueva notificación,
    default, false and an empty object otherwise. *)
Theorem push_shows_one_notification (event_data : option PushMessageData)
    (data : JsVal) (cs : CacheStorage) :
  push_data event_data = Returned data →
  data ≠ JNull → data ≠ JUndefined →
  push_data None = Returned (JObj []) ∧
  push_listener event_data cs =
    (Returned (Fulfilled tt), cs, [notification_of field_or data]).
Proof.
  intros Hd Hn Hu. split; [done|].
  unfold push_listener, push_notification. rewrite Hd. unfold cbind at 1.
  rewrite !(member_field data) by done. unfold cbind.
  rewrite !js_or_field. done.
Qed.

Lemma push_shows_one_notification_witness :
  push_data None = Returned (JObj []) ∧
  JObj [] ≠ JNull ∧ JObj [] ≠ JUndefined ∧
  push_listener None [] =
    (Returned (Fulfilled tt), [],
     [ShowNotification (JStr "Visual Mind AI")
        (JObj [ ("body", JStr "Nueva notificación");
                ("icon", JStr "/icon-192.png");
                ("badge", JStr "/badge-72.png");
                ("vibrate", JArr [JNum 200; JNum 100; JNum 200]);
                ("tag", JStr "default");
                ("requireInteraction", JBool false);
                ("data", JObj []) ])]).
Proof.
  assert (Hn : JObj [] ≠ JNull) by discriminate.
  assert (Hu : JObj [] ≠ JUndefined) by discriminate.
  split; [reflexivity|]. split; [exact Hn|]. split; [exact Hu|].
  exact (proj2 (push_shows_one_notification None (JObj []) [] eq_refl Hn Hu)).
Defined.

(** C9 as written fails on a payload with a falsy field: [data: 0] is
    present, and the notification carries the empty object instead. *)
Lemma push_falsy_field_counterexample :
  payload_field (JObj [ ("title", JStr "Copia lista"); ("data", JNum 0) ]) "data"
    = Some (JNum 0) ∧
  calls (push_listener zero_data_push []) =
    [ShowNotification (JStr "Copia lista")
       (JObj [ ("body", JStr "Nueva notificación");
               ("icon", JStr "/icon-192.png");
               ("badge", JStr "/badge-72.png");
               ("vibrate", JArr [JNum 200; JNum 100; JNum 200]);
               ("tag", JStr "default");
               ("requireInteraction", JBool false);
               ("data", JObj []) ])] ∧
  ¬ push_claim zero_data_push [].
Proof.
  split; [reflexivity|]. split; [reflexivity|].
  unfold push_claim. vm_compute. discriminate.
Qed.

(** A payload that is not JSON makes the listener throw before any
    notification is shown. *)
Lemma push_unparsable_payload_throws (cs : CacheStorage) :
  push_listener text_push cs = (Threw (SyntaxError "Unexpected token"), cs, []).
Proof. reflexivity. Qed.

(** So does a payload that is the JSON text null. *)
Lemma push_null_payload_throws (cs : CacheStorage) :
  ∃ e, push_listener (Some {| json := Returned JNull |}) cs = (Threw e, cs, []).
Proof. by eexists. Qed.

(** ** Sample runs *)

Example activate_sample :
  cache_names (store (activate_listener sample_store)) =
    ["visual-mind-ai-v1.0.0"; "visual-mind-runtime-v1.0.0"] ∧
  calls (activate_listener sample_store) =
    [CachesKeys; CachesDelete "visual-mind-ai-v0.9.0"; ClientsClaim].
Proof. split; reflexivity. Qed.

Example fetch_online_sample :
  fetch_listener (online_host page_response) page_request [] =
    (RespondWith (Fulfilled page_response),
     [("visual-mind-runtime-v1.0.0",
       {[ "https://visual-mind.example/index.html" := page_response ]})],
     [Fetch page_request;
      CachesOpen "visual-mind-runtime-v1.0.0";
      CachePut "visual-mind-runtime-v1.0.0" page_request page_response]).
Proof. reflexivity. Qed.

Example fetch_404_sample :
  fetch_listener (online_host missing_response) page_request sample_store =
    (RespondWith (Fulfilled missing_response), sample_store, [Fetch page_request]).
Proof. reflexivity. Qed.

Example fetch_offline_cached_sample :
  fetch_listener offline_host
    (Request.mk "https://visual-mind.example/" "GET" Navigate [("accept", "text/html")])
    sample_store =
    (RespondWith (Fulfilled page_response), sample_store,
     [Fetch (Request.mk "https://visual-mind.example/" "GET" Navigate [("accept", "text/html")]);
      CachesMatch (Request.mk "https://visual-mind.example/" "GET" Navigate [("accept", "text/html")])]).
Proof. reflexivity. Qed.

Example fetch_offline_script_sample :
  result (fetch_listener offline_host script_request []) =
    RespondWith (Fulfilled service_unavailable)
  ∧ Response.status service_unavailable = 503.
Proof. split; reflexivity. Qed.

Example fetch_offline_page_sample :
  result (fetch_listener offline_host page_request []) =
    RespondWith (Fulfilled offline_page)
  ∧ Response.headers offline_page = [("content-type", "text/html")]
  ∧ includes (Response.body offline_page) "<h2>Sin Conexión</h2>" = true.
Proof. repeat split; vm_compute; reflexivity. Qed.

Example message_skip_sample :
  message_listener offline_host (JObj [ ("type", JStr "SKIP_WAITING") ]) sample_store =
    (Returned None, sample_store, [SkipWaiting]).
Proof. reflexivity. Qed.

Example message_string_sample :
  message_listener offline_host (JStr "CLEAR_CACHE") sample_store =
    (Returned None, sample_store, []).
Proof. reflexivity. Qed.

Example message_undefined_sample :
  message_listener offline_host JUndefined sample_store =
    (Returned None, sample_store, []).
Proof. reflexivity. Qed.


(** * Further properties of the listeners *)

(** ** Strings *)

Lemma append_cons (a : Ascii.ascii) (s t : string) :
  String a s +:+ t = String a (s +:+ t).
Proof. reflexivity. Qed.

Lemma append_empty (t : string) : "" +:+ t = t.
Proof. reflexivity. Qed.

Lemma prefix_append (p s : string) :
  String.prefix p s = true ↔ ∃ rest, s = p +:+ rest.
Proof.
  revert s. induction p as [|a p IH]; intros s.
  - split; [intros _; by exists s | intros _; by destruct s].
  - destruct s as [|b s]; simpl.
    + split; [discriminate | intros (rest & Hr); discriminate].
    + destruct (Ascii.ascii_dec a b) as [-> | Hab].
      * rewrite IH. split; intros (rest & Hr); exists rest;
          rewrite append_cons in *; congruence.
      * split; [discriminate|].
        intros (rest & Hr). rewrite append_cons in Hr. congruence.
Qed.

Lemma includes_substring (s p : string) :
  includes s p = true ↔ ∃ pre post, s = pre +:+ (p +:+ post).
Proof.
  induction s as [|a s IH].
  - cbn [includes]. rewrite orb_false_r, prefix_append. split.
    + intros (rest & Hr). by exists "", rest.
    + intros (pre & post & Hs). destruct pre; [by exists post | discriminate].
  - cbn [includes]. rewrite orb_true_iff, prefix_append, IH. split.
    + intros [(rest & Hr) | (pre & post & Hs)].
      * by exists "", rest.
      * exists (String a pre), post. by rewrite append_cons, Hs.
    + intros (pre & post & Hs). destruct pre as [|b pre].
      * left. by exists post.
      * right. exists pre, post. rewrite append_cons in Hs. congruence.
Qed.

(** ** The fetch listener: interception, frame and fallback *)

Lemma fetch_listener_cases (h : Host) (request : Request.t) (cs : CacheStorage) :
  (fetch_listener h request cs = (NotIntercepted, cs, []) ∧
   (denylisted request ∨ Request.method request ≠ "GET")) ∨
  (Request.method request = "GET" ∧ ¬ denylisted request).
Proof.
  unfold fetch_listener.
  destruct (existsb _ _) eqn:Hd.
  - left. split; [done|]. left. by apply some_startsWith_true in Hd.
  - destruct (String.eqb_spec (Request.method request) "GET") as [Hm | Hm].
    + right. split; [done|]. by apply not_denylisted_test.
    + left. split; [done | by right].
Qed.

Lemma denylisted_prefix (request : Request.t) :
  denylisted request ↔
  ∃ rest, Request.url request = "https://api.anthropic.com" +:+ rest.
Proof.
  rewrite <- prefix_append. unfold denylisted, NO_CACHE_URLS, startsWith. split.
  - intros (noCache & Hin & Hs). apply list_elem_of_singleton in Hin. by subst.
  - intros Hs. eexists. split; [apply list_elem_of_singleton; reflexivity | done].
Qed.

(** X1: the fetch listener leaves a request alone exactly when its URL is
    https://api.anthropic.com followed by anything (a plain prefix test,
    so a host name that merely begins that way is let through as well)
    or its method is not GET; every other request is answered through
    [respondWith]. *)
Theorem fetch_intercepts_iff (h : Host) (request : Request.t) (cs : CacheStorage) :
  (fetch_listener h request cs = (NotIntercepted, cs, []) ↔
   (∃ rest, Request.url request = "https://api.anthropic.com" +:+ rest) ∨
   Request.method request ≠ "GET") ∧
  (¬ (∃ rest, Request.url request = "https://api.anthropic.com" +:+ rest) →
   Request.method request = "GET" →
   ∃ answer, result (fetch_listener h request cs) = RespondWith answer).
Proof.
  rewrite <- denylisted_prefix. split.
  - destruct (fetch_listener_cases h request cs) as [[Hr Hc] | [Hm Hd]].
    + by split.
    + split; [|intros [? | ?]; done].
      rewrite fetch_listener_intercepted by done.
      unfold bind. destruct (catch _ _ cs) as [[a st] t]. discriminate.
  - intros Hd Hm. rewrite fetch_listener_intercepted by done.
    unfold bind. destruct (catch _ _ cs) as [[a st] t]. by eexists.
Qed.

Lemma fetch_intercepts_iff_witness :
  (∃ rest, Request.url lookalike_request = "https://api.anthropic.com" +:+ rest) ∧
  fetch_listener offline_host lookalike_request sample_store =
    (NotIntercepted, sample_store, []).
Proof.
  assert (Hp : ∃ rest, Request.url lookalike_request
                       = "https://api.anthropic.com" +:+ rest)
    by (by exists ".visual-mind.example/track").
  split; [exact Hp|].
  apply (proj1 (fetch_intercepts_iff offline_host lookalike_request sample_store)).
  by left.
Defined.

(** X2: with the network down, nothing cached for the request and an
    Accept header on it, the answer is never a rejection: it is the
    offline page (status 200, text/html) exactly when the header has
    text/html somewhere in it, and the 503 response otherwise; the
    cache store is not touched. *)
Theorem fetch_offline_answer (h : Host) (request : Request.t) (e : JsError)
    (accept : string) (cs : CacheStorage) :
  Request.method request = "GET" →
  ¬ denylisted request →
  network h request = Rejected e →
  storage_match cs (Request.url request) = None →
  headers_get (Request.headers request) "accept" = Some accept →
  let r := fetch_listener h request cs in
  ((∃ pre post, accept = pre +:+ ("text/html" +:+ post)) →
   result r = RespondWith (Fulfilled offline_page)) ∧
  (¬ (∃ pre post, accept = pre +:+ ("text/html" +:+ post)) →
   result r = RespondWith (Fulfilled service_unavailable)) ∧
  store r = cs ∧
  Response.status offline_page = 200 ∧
  headers_get (Response.headers offline_page) "Content-Type" = Some "text/html" ∧
  Response.status service_unavailable = 503.
Proof.
  intros Hm Hd Hn Hc Ha r. subst r.
  rewrite (fetch_listener_rejected h request e cs Hm Hd Hn).
  rewrite on_network_failure_run, Hc, Ha. unfold result, store. simpl.
  rewrite <- includes_substring.
  destruct (includes accept "text/html"); repeat split; try done.
Qed.

Lemma fetch_offline_answer_witness :
  Request.method script_request = "GET" ∧
  ¬ denylisted script_request ∧
  ¬ (∃ pre post, "*/*" = pre +:+ ("text/html" +:+ post)) ∧
  result (fetch_listener offline_host script_request []) =
    RespondWith (Fulfilled service_unavailable).
Proof.
  assert (Hm : Request.method script_request = "GET") by reflexivity.
  assert (Hd : ¬ denylisted script_request)
    by (apply not_denylisted_test; reflexivity).
  assert (Hs : ¬ (∃ pre post, "*/*" = pre +:+ ("text/html" +:+ post))).
  { intros Hs. apply includes_substring in Hs. discriminate. }
  split; [exact Hm|]. split; [exact Hd|]. split; [exact Hs|].
  exact (proj1 (proj2 (fetch_offline_answer offline_host script_request
                         (TypeError "Failed to fetch") "*/*" []
                         Hm Hd eq_refl eq_refl eq_refl)) Hs).
Defined.

(** The store an intercepted request leaves: the one it found, or that
    one with the runtime cache opened and, when the host lets the entry
    through, the response put under the request's URL. *)
Lemma fetch_listener_store (h : Host) (request : Request.t) (cs : CacheStorage) :
  store (fetch_listener h request cs) = cs ∨
  (Request.method request = "GET" ∧ ¬ denylisted request ∧
   ∃ response,
     network h request = Fulfilled response ∧ cacheable response ∧
     open_error h RUNTIME_CACHE = None ∧
     store (fetch_listener h request cs) =
       match put_error h RUNTIME_CACHE request (clone response) with
       | None =>
           storage_put (storage_open cs RUNTIME_CACHE) RUNTIME_CACHE
             (Request.url request) (clone response)
       | Some _ => storage_open cs RUNTIME_CACHE
       end).
Proof.
  destruct (fetch_listener_cases h request cs) as [[-> _] | [Hm Hd]]; [by left|].
  destruct (network h request) as [response | e] eqn:Hn.
  - destruct (fetch_listener_fulfilled h request response cs Hm Hd Hn) as [-> _].
    unfold store. simpl. rewrite on_network_response_run.
    destruct (decide (cacheable response)) as [Hc | Hc]; [|by left].
    destruct (open_error h RUNTIME_CACHE) as [e|] eqn:Ho; [by left|].
    right. split; [done|]. split; [done|]. by exists response.
  - rewrite (fetch_listener_rejected h request e cs Hm Hd Hn). by left.
Qed.

Lemma storage_match_app (cs cs' : CacheStorage) (url : string) :
  storage_match (cs ++ cs') url =
    match storage_match cs url with
    | Some r => Some r
    | None => storage_match cs' url
    end.
Proof.
  induction cs as [|[n c] cs IH]; simpl; [done|].
  by destruct (c !! url).
Qed.

Lemma storage_match_open (cs : CacheStorage) (name url : string) :
  storage_match (storage_open cs name) url = storage_match cs url.
Proof.
  unfold storage_open. destruct (storage_has cs name); [done|].
  rewrite storage_match_app. simpl. rewrite lookup_empty.
  by destruct (storage_match cs url).
Qed.

Lemma storage_lookup_open_same (cs : CacheStorage) (name : string) :
  is_Some (storage_lookup (storage_open cs name) name).
Proof.
  rewrite storage_lookup_open, String.eqb_refl.
  destruct (storage_lookup cs name); by eexists.
Qed.

Lemma storage_match_put_fresh (cs : CacheStorage) (name url : string)
    (r : Response.t) :
  storage_match cs url = None →
  is_Some (storage_lookup cs name) →
  storage_match (storage_put cs name url r) url = Some r.
Proof.
  induction cs as [|[n c] cs IH]; simpl; intros Hm Hl.
  - by destruct Hl.
  - destruct (c !! url) eqn:Hc; [discriminate|].
    destruct (String.eqb n name); simpl.
    + by rewrite lookup_insert_eq.
    + rewrite Hc. by apply IH.
Qed.

Lemma storage_match_put_some (cs : CacheStorage) (name url : string)
    (r : Response.t) :
  is_Some (storage_lookup cs name) →
  is_Some (storage_match (storage_put cs name url r) url).
Proof.
  induction cs as [|[n c] cs IH]; simpl; intros Hl.
  - by destruct Hl.
  - destruct (String.eqb n name); simpl.
    + rewrite lookup_insert_eq. by eexists.
    + destruct (c !! url); [by eexists | by apply IH].
Qed.

Lemma storage_match_put_shadow (pre tail : CacheStorage) (name url : string)
    (r old : Response.t) :
  name ∉ pre.*1 →
  storage_match pre url = Some old →
  storage_match (storage_put (pre ++ tail) name url r) url = Some old.
Proof.
  induction pre as [|[n c] pre IH]; simpl; intros Hn Hm; [discriminate|].
  apply not_elem_of_cons in Hn as [Hne Hn].
  destruct (String.eqb_spec n name) as [-> | _]; [done|]. simpl.
  destruct (c !! url); [done | by apply IH].
Qed.

Lemma storage_open_app (pre post : CacheStorage) (name : string) :
  ∃ tail, storage_open (pre ++ post) name = pre ++ tail.
Proof.
  unfold storage_open. destruct (storage_has _ _).
  - by exists post.
  - exists (post ++ [(name, ∅)]). by rewrite app_assoc.
Qed.

(** X3: the fetch listener changes the cache store only in one case: a
    GET request off the deny list that the network answered with a 200
    response that is not opaque, on a host that let the runtime cache be
    opened.  A failed fetch, a bypassed request or any other response
    leaves the store exactly as it was. *)
Theorem fetch_store_changes_only_on_mirror (h : Host) (request : Request.t)
    (cs : CacheStorage) :
  store (fetch_listener h request cs) ≠ cs →
  Request.method request = "GET" ∧
  ¬ denylisted request ∧
  open_error h RUNTIME_CACHE = None ∧
  ∃ response,
    network h request = Fulfilled response ∧
    Response.status response = 200 ∧ Response.type response ≠ Opaque.
Proof.
  intros Hs.
  destruct (fetch_listener_store h request cs)
    as [Heq | (Hm & Hd & response & Hn & Hc & Ho & _)]; [done|].
  repeat (split; [done|]). by exists response.
Qed.

Lemma fetch_store_changes_only_on_mirror_witness :
  store (fetch_listener (online_host page_response) page_request []) ≠ [] ∧
  network (online_host page_response) page_request = Fulfilled page_response.
Proof.
  assert (Hs : store (fetch_listener (online_host page_response) page_request [])
               ≠ []) by (vm_compute; discriminate).
  split; [exact Hs|].
  destruct (fetch_store_changes_only_on_mirror (online_host page_response)
              page_request [] Hs) as (_ & _ & _ & response & Hn & _).
  reflexivity.
Defined.

(** X4: whatever the request and whatever the host does, the fetch
    listener removes no cache, and the only entry it can change is the
    one of the request's own URL in the runtime cache: every other entry
    of every cache reads as before. *)
Theorem fetch_keeps_other_entries (h : Host) (request : Request.t)
    (cs : CacheStorage) (name : string) (c : gmap string Response.t) :
  storage_lookup cs name = Some c →
  ∃ c',
    storage_lookup (store (fetch_listener h request cs)) name = Some c' ∧
    ∀ url, name ≠ RUNTIME_CACHE ∨ url ≠ Request.url request →
           c' !! url = c !! url.
Proof.
  intros Hl.
  destruct (fetch_listener_store h request cs)
    as [-> | (_ & _ & response & _ & _ & _ & ->)]; [by exists c|].
  assert (Hopen : storage_lookup (storage_open cs RUNTIME_CACHE) name = Some c)
    by by rewrite storage_lookup_open, Hl.
  destruct (put_error _ _ _ _); [by exists c|].
  rewrite storage_lookup_put, Hopen.
  destruct (String.eqb_spec RUNTIME_CACHE name) as [<- | Hne]; simpl.
  - eexists. split; [done|]. intros url [Hu | Hu]; [done|].
    by rewrite lookup_insert_ne.
  - by exists c.
Qed.

Lemma fetch_keeps_other_entries_witness :
  storage_lookup sample_store "visual-mind-ai-v1.0.0"
    = Some {[ "https://visual-mind.example/" := page_response ]} ∧
  ∃ c',
    storage_lookup
      (store (fetch_listener (online_host newer_response) root_request sample_store))
      "visual-mind-ai-v1.0.0" = Some c' ∧
    c' !! "https://visual-mind.example/" = Some page_response.
Proof.
  assert (Hl : storage_lookup sample_store "visual-mind-ai-v1.0.0"
               = Some {[ "https://visual-mind.example/" := page_response ]})
    by reflexivity.
  split; [exact Hl|].
  destruct (fetch_keeps_other_entries (online_host newer_response) root_request
              sample_store _ _ Hl) as (c' & Hc' & Hframe).
  exists c'. split; [exact Hc'|].
  rewrite Hframe; [reflexivity|]. left. discriminate.
Defined.

Lemma mirror_store (h : Host) (request : Request.t) (response : Response.t)
    (cs : CacheStorage) :
  Request.method request = "GET" →
  ¬ denylisted request →
  network h request = Fulfilled response →
  cacheable response →
  store (fetch_listener h request cs) =
    match open_error h RUNTIME_CACHE with
    | Some _ => cs
    | None =>
        match put_error h RUNTIME_CACHE request (clone response) with
        | None =>
            storage_put (storage_open cs RUNTIME_CACHE) RUNTIME_CACHE
              (Request.url request) (clone response)
        | Some _ => storage_open cs RUNTIME_CACHE
        end
    end.
Proof.
  intros Hm Hd Hn Hc.
  destruct (fetch_listener_fulfilled h request response cs Hm Hd Hn) as [-> _].
  unfold store. simpl. rewrite on_network_response_run.
  rewrite decide_True by done.
  by destruct (open_error h RUNTIME_CACHE).
Qed.

Lemma offline_cached (h : Host) (request : Request.t) (e : JsError)
    (cached : Response.t) (cs : CacheStorage) :
  Request.method request = "GET" →
  ¬ denylisted request →
  network h request = Rejected e →
  storage_match cs (Request.url request) = Some cached →
  result (fetch_listener h request cs) = RespondWith (Fulfilled cached).
Proof.
  intros Hm Hd Hn Hc.
  rewrite (fetch_listener_rejected h request e cs Hm Hd Hn).
  by rewrite on_network_failure_run, Hc.
Qed.

(** X5: when the host refuses the cache write that follows a 200
    response (the runtime cache cannot be opened, or the entry is
    refused), every entry stored before reads as before and every cache
    lookup answers as before; if the cache could not be opened the store
    is untouched. *)
Theorem fetch_refused_write_keeps_store (h : Host) (request : Request.t)
    (response : Response.t) (cs : CacheStorage) :
  Request.method request = "GET" →
  ¬ denylisted request →
  network h request = Fulfilled response →
  Response.status response = 200 →
  Response.type response ≠ Opaque →
  open_error h RUNTIME_CACHE ≠ None ∨
  put_error h RUNTIME_CACHE request (clone response) ≠ None →
  let r := fetch_listener h request cs in
  (∀ name c, storage_lookup cs name = Some c →
             storage_lookup (store r) name = Some c) ∧
  (∀ url, storage_match (store r) url = storage_match cs url) ∧
  (open_error h RUNTIME_CACHE ≠ None → store r = cs).
Proof.
  intros Hm Hd Hn Hs Ht Hrefused r. subst r.
  rewrite (mirror_store h request response cs Hm Hd Hn (conj Hs Ht)).
  destruct (open_error h RUNTIME_CACHE) as [e|]; [done|].
  destruct Hrefused as [Ho | Hp]; [done|].
  destruct (put_error h RUNTIME_CACHE request (clone response)); [|done].
  split; [|split; [|done]].
  - intros name c Hl. by rewrite storage_lookup_open, Hl.
  - intros url. apply storage_match_open.
Qed.

Lemma fetch_refused_write_keeps_store_witness :
  put_error (full_disk_host newer_response) RUNTIME_CACHE root_request
    (clone newer_response) ≠ None ∧
  storage_match
    (store (fetch_listener (full_disk_host newer_response) root_request sample_store))
    (Request.url root_request) = Some page_response.
Proof.
  assert (Hm : Request.method root_request = "GET") by reflexivity.
  assert (Hd : ¬ denylisted root_request)
    by (apply not_denylisted_test; reflexivity).
  assert (Hp : put_error (full_disk_host newer_response) RUNTIME_CACHE root_request
                 (clone newer_response) ≠ None) by (simpl; discriminate).
  assert (Ht : Response.type newer_response ≠ Opaque) by (simpl; discriminate).
  split; [exact Hp|].
  destruct (fetch_refused_write_keeps_store (full_disk_host newer_response)
              root_request newer_response sample_store Hm Hd eq_refl eq_refl Ht
              (or_intror Hp)) as (_ & Hmatch & _).
  rewrite Hmatch. reflexivity.
Defined.

(** X6: a response that was mirrored is there when the network goes
    down.  After a 200 response that is not opaque was fetched on a host
    that let the write through, a later fetch of the same request that
    fails on the network is answered from the cache, never with the
    offline page, the 503 response or a rejection; the answer is the
    mirrored response whenever no cache held the URL before. *)
Theorem fetch_online_then_offline (h1 h2 : Host) (request : Request.t)
    (response : Response.t) (e : JsError) (cs : CacheStorage) :
  Request.method request = "GET" →
  ¬ denylisted request →
  network h1 request = Fulfilled response →
  Response.status response = 200 →
  Response.type response ≠ Opaque →
  open_error h1 RUNTIME_CACHE = None →
  put_error h1 RUNTIME_CACHE request (clone response) = None →
  network h2 request = Rejected e →
  let cs' := store (fetch_listener h1 request cs) in
  ∃ cached,
    storage_match cs' (Request.url request) = Some cached ∧
    result (fetch_listener h2 request cs') = RespondWith (Fulfilled cached) ∧
    (storage_match cs (Request.url request) = None → cached = response).
Proof.
  intros Hm Hd Hn1 Hs Ht Ho Hp Hn2 cs'. subst cs'.
  rewrite (mirror_store h1 request response cs Hm Hd Hn1 (conj Hs Ht)), Ho, Hp.
  destruct (storage_match_put_some (storage_open cs RUNTIME_CACHE) RUNTIME_CACHE
              (Request.url request) (clone response)
              (storage_lookup_open_same cs RUNTIME_CACHE)) as [cached Hc].
  exists cached. split; [done|]. split.
  - by apply (offline_cached h2 request e).
  - intros Hnone.
    rewrite storage_match_put_fresh in Hc.
    + by injection Hc as <-.
    + by rewrite storage_match_open.
    + apply storage_lookup_open_same.
Qed.

Lemma fetch_online_then_offline_witness :
  Request.method page_request = "GET" ∧
  ¬ denylisted page_request ∧
  network (online_host page_response) page_request = Fulfilled page_response ∧
  network offline_host page_request = Rejected (TypeError "Failed to fetch") ∧
  storage_match [] (Request.url page_request) = None ∧
  result (fetch_listener offline_host page_request
            (store (fetch_listener (online_host page_response) page_request []))) =
    RespondWith (Fulfilled page_response).
Proof.
  assert (Hm : Request.method page_request = "GET") by reflexivity.
  assert (Hd : ¬ denylisted page_request)
    by (apply not_denylisted_test; reflexivity).
  assert (Ht : Response.type page_response ≠ Opaque) by (simpl; discriminate).
  repeat (split; [done|]).
  destruct (fetch_online_then_offline (online_host page_response) offline_host
              page_request page_response (TypeError "Failed to fetch") []
              Hm Hd eq_refl eq_refl Ht eq_refl eq_refl eq_refl)
    as (cached & _ & Hr & Hfresh).
  rewrite Hr, (Hfresh eq_refl). reflexivity.
Defined.

(** X7: [caches.match] searches the caches in creation order, so an
    entry for the same URL in a cache created before the runtime cache
    (the precache, or a stale cache) keeps being served when the network
    is down, even after a newer response for that URL was mirrored into
    the runtime cache. *)
Theorem fetch_older_cache_shadows_mirror (h1 h2 : Host) (request : Request.t)
    (response old : Response.t) (e : JsError) (pre post : CacheStorage) :
  Request.method request = "GET" →
  ¬ denylisted request →
  network h1 request = Fulfilled response →
  network h2 request = Rejected e →
  RUNTIME_CACHE ∉ pre.*1 →
  storage_match pre (Request.url request) = Some old →
  result (fetch_listener h2 request
            (store (fetch_listener h1 request (pre ++ post)))) =
    RespondWith (Fulfilled old).
Proof.
  intros Hm Hd Hn1 Hn2 Hpre Hold.
  apply (offline_cached h2 request e); [done | done | done |].
  destruct (fetch_listener_store h1 request (pre ++ post))
    as [-> | (_ & _ & response' & _ & _ & _ & ->)].
  - by rewrite storage_match_app, Hold.
  - destruct (storage_open_app pre post RUNTIME_CACHE) as [tail ->].
    destruct (put_error _ _ _ _).
    + by rewrite storage_match_app, Hold.
    + by apply storage_match_put_shadow.
Qed.

Lemma fetch_older_cache_shadows_mirror_witness :
  Request.method root_request = "GET" ∧
  ¬ denylisted root_request ∧
  network (online_host newer_response) root_request = Fulfilled newer_response ∧
  newer_response ≠ page_response ∧
  result (fetch_listener offline_host root_request
            (store (fetch_listener (online_host newer_response) root_request
                      sample_store))) =
    RespondWith (Fulfilled page_response).
Proof.
  assert (Hm : Request.method root_request = "GET") by reflexivity.
  assert (Hd : ¬ denylisted root_request)
    by (apply not_denylisted_test; reflexivity).
  assert (Hpre : RUNTIME_CACHE ∉ (take 2 sample_store).*1).
  { simpl. intros Hin. scan_trace Hin. }
  repeat (split; [done|]).
  exact (fetch_older_cache_shadows_mirror (online_host newer_response) offline_host
           root_request newer_response page_response (TypeError "Failed to fetch")
           (take 2 sample_store) (drop 2 sample_store)
           Hm Hd eq_refl eq_refl Hpre eq_refl).
Defined.

(** ** Activation, again and before going offline *)

Lemma storage_match_Some (cs : CacheStorage) (url : string) (r : Response.t) :
  storage_match cs url = Some r →
  ∃ name c, (name, c) ∈ cs ∧ c !! url = Some r.
Proof.
  induction cs as [|[n c] cs IH]; simpl; [discriminate|].
  destruct (c !! url) as [r'|] eqn:Hc.
  - intros [= <-]. exists n, c. split; [left | done].
  - intros Hm. destruct (IH Hm) as (n' & c' & Hin & Hr).
    exists n', c'. split; [by right | done].
Qed.

Lemma storage_match_None (cs : CacheStorage) (url : string) :
  storage_match cs url = None →
  ∀ name c, (name, c) ∈ cs → c !! url = None.
Proof.
  induction cs as [|[n c] cs IH]; simpl; intros Hm name c' Hin.
  - by apply elem_of_nil in Hin.
  - destruct (c !! url) eqn:Hc; [discriminate|].
    apply elem_of_cons in Hin as [[= -> ->] | Hin]; [done | by eapply IH].
Qed.

Lemma activate_store (cs : CacheStorage) :
  store (activate_listener cs) = current cs.
Proof. by rewrite activate_listener_run. Qed.

(** X8: activating a second time changes nothing: the store that an
    activation leaves is left as it is by the next one, which finds no
    cache to delete and only lists the caches and claims the clients. *)
Theorem activate_idempotent (cs : CacheStorage) :
  let cs1 := store (activate_listener cs) in
  activate_listener cs1 = (Fulfilled tt, cs1, [CachesKeys; ClientsClaim]).
Proof.
  intros cs1. subst cs1. rewrite activate_store, activate_listener_run.
  unfold current. f_equal; [f_equal|].
  - etrans; [apply list_filter_filter|]. apply list_filter_iff. tauto.
  - rewrite filter_none; [done|].
    intros name Hin [H1 H2]. unfold cache_names in Hin.
    apply list_elem_of_fmap in Hin as ([n c] & -> & Hin).
    apply list_elem_of_filter in Hin as [[? | ?] _]; done.
Qed.

(** X9: after an activation the offline fallback answers from the two
    current caches only.  With the network down, a cached answer is an
    entry that one of the two current caches held before the
    activation; and when the lookup misses, neither current cache held
    the URL, whatever the deleted caches held. *)
Theorem activate_then_offline (h : Host) (request : Request.t) (e : JsError)
    (cs : CacheStorage) :
  Request.method request = "GET" →
  ¬ denylisted request →
  network h request = Rejected e →
  let cs' := store (activate_listener cs) in
  match storage_match cs' (Request.url request) with
  | Some cached =>
      result (fetch_listener h request cs') = RespondWith (Fulfilled cached) ∧
      ∃ name c,
        (name = "visual-mind-ai-v1.0.0" ∨ name = "visual-mind-runtime-v1.0.0") ∧
        (name, c) ∈ cs ∧ c !! Request.url request = Some cached
  | None =>
      (∀ name c,
         (name, c) ∈ cs →
         name = "visual-mind-ai-v1.0.0" ∨ name = "visual-mind-runtime-v1.0.0" →
         c !! Request.url request = None) ∧
      ∀ cached,
        result (fetch_listener h request cs') = RespondWith (Fulfilled cached) →
        synthesized cached
  end.
Proof.
  intros Hm Hd Hn cs'. subst cs'. rewrite activate_store.
  destruct (storage_match (current cs) (Request.url request)) as [cached|] eqn:Hc.
  - split; [by apply (offline_cached h request e)|].
    apply storage_match_Some in Hc as (name & c & Hin & Hr).
    apply list_elem_of_filter in Hin as [Hcur Hin].
    by exists name, c.
  - split.
    + intros name c Hin Hcur.
      apply (storage_match_None _ _ Hc name c).
      apply list_elem_of_filter. by split.
    + intros cached.
      rewrite (fetch_listener_rejected h request e _ Hm Hd Hn).
      rewrite on_network_failure_run, Hc. unfold result. simpl.
      destruct (headers_get _ _) as [accept|]; [|discriminate].
      intros [= <-]. unfold synthesized.
      destruct (includes accept "text/html"); [by left | by right].
Qed.

Lemma activate_then_offline_witness :
  Request.method root_request = "GET" ∧
  ¬ denylisted root_request ∧
  result (fetch_listener offline_host root_request stale_only_store) =
    RespondWith (Fulfilled page_response) ∧
  storage_match (store (activate_listener stale_only_store))
    (Request.url root_request) = None ∧
  ∀ cached,
    result (fetch_listener offline_host root_request
              (store (activate_listener stale_only_store)))
      = RespondWith (Fulfilled cached) →
    synthesized cached.
Proof.
  assert (Hm : Request.method root_request = "GET") by reflexivity.
  assert (Hd : ¬ denylisted root_request)
    by (apply not_denylisted_test; reflexivity).
  assert (Hmiss : storage_match (store (activate_listener stale_only_store))
                    (Request.url root_request) = None) by reflexivity.
  split; [exact Hm|]. split; [exact Hd|]. split; [reflexivity|].
  split; [exact Hmiss|].
  pose proof (activate_then_offline offline_host root_request
                (TypeError "Failed to fetch") stale_only_store Hm Hd eq_refl) as H.
  cbv zeta in H. rewrite Hmiss in H. exact (proj2 H).
Defined.

(** ** Clearing the caches *)

(** X10: on CLEAR_CACHE the listener lists the caches, deletes each of
    them in that order, then asks for the clients and posts one
    CACHE_CLEARED message to each; the messages come after the last
    delete, and without a client none is posted. *)
Theorem message_clear_notifies_clients (h : Host) (data : JsVal)
    (cs : CacheStorage) :
  has_type data "CLEAR_CACHE" →
  calls (message_listener h data cs) =
    CachesKeys :: map CachesDelete (cache_names cs) ++
    ClientsMatchAll ::
    map (fun client =>
           PostMessage client
             (JObj [ ("type", JStr "CACHE_CLEARED");
                     ("message", JStr "Caché limpiado exitosamente") ]))
        (window_clients h).
Proof.
  intros Hc. unfold message_listener.
  destruct (data_type_is_spec data "SKIP_WAITING") as (b1 & -> & H1).
  destruct (data_type_is_spec data "CLEAR_CACHE") as (b2 & -> & H2).
  assert (b2 = true) as -> by by apply H2.
  assert (b1 = false) as ->.
  { destruct b1; [|done].
    assert (Hs : has_type data "SKIP_WAITING") by by apply H1.
    by pose proof (has_type_functional _ _ _ Hs Hc). }
  unfold bind, ret. simpl. rewrite clear_caches_run.
  unfold calls. simpl. by rewrite app_nil_r.
Qed.

Lemma message_clear_notifies_clients_witness :
  has_type clear_message "CLEAR_CACHE" ∧
  calls (message_listener (online_host page_response) clear_message sample_store) =
    [ CachesKeys;
      CachesDelete "visual-mind-ai-v0.9.0";
      CachesDelete "visual-mind-ai-v1.0.0";
      CachesDelete "visual-mind-runtime-v1.0.0";
      ClientsMatchAll;
      PostMessage "window-1" CACHE_CLEARED ].
Proof.
  assert (Ht : has_type clear_message "CLEAR_CACHE").
  { exists [ ("type", JStr "CLEAR_CACHE") ]. split; reflexivity. }
  split; [exact Ht|].
  exact (message_clear_notifies_clients (online_host page_response)
           clear_message sample_store Ht).
Defined.

(** ** Installation: the cache that cannot be opened, and the frame *)

(** X11: the [catch] of the install chain covers [addAll] only.  When
    the precache cannot be opened the promise the installation waits
    for rejects with that error: no bulk fetch is started,
    [skipWaiting] is not called and the store is untouched. *)
Theorem install_fails_when_cache_cannot_open (h : Host) (e : JsError)
    (cs : CacheStorage) :
  open_error h CACHE_NAME = Some e →
  install_listener h cs = (Rejected e, cs, [CachesOpen "visual-mind-ai-v1.0.0"]).
Proof.
  intros Ho. unfold install_listener.
  unfold then_ at 1. unfold bind at 1. unfold then_ at 1. unfold bind at 1.
  unfold caches_open at 1. by rewrite Ho.
Qed.

Lemma install_fails_when_cache_cannot_open_witness :
  open_error (no_storage_host page_response) CACHE_NAME
    = Some (DOMException "SecurityError") ∧
  result (install_listener (no_storage_host page_response) sample_store)
    = Rejected (DOMException "SecurityError") ∧
  SkipWaiting ∉ calls (install_listener (no_storage_host page_response) sample_store).
Proof.
  assert (Ho : open_error (no_storage_host page_response) CACHE_NAME
               = Some (DOMException "SecurityError")) by reflexivity.
  split; [exact Ho|].
  rewrite (install_fails_when_cache_cannot_open (no_storage_host page_response)
             _ sample_store Ho).
  split; [reflexivity|]. unfold calls. simpl. intros Hin. scan_trace Hin.
Defined.

Lemma fold_put_other (name name' : string) (entries : list (string * Response.t))
    (cs : CacheStorage) :
  name ≠ name' →
  storage_lookup
    (fold_left (fun s e => storage_put s name e.1 e.2) entries cs) name'
    = storage_lookup cs name'.
Proof.
  intros Hne. revert cs. induction entries as [|[u r] entries IH]; intros cs; simpl.
  - done.
  - rewrite IH, storage_lookup_put.
    by destruct (String.eqb_spec name name').
Qed.

(** X12: the installation removes nothing.  Whatever the host does,
    every cache that was there is still there afterwards, every URL that
    had an entry still has one, and the caches other than
    visual-mind-ai-v1.0.0 are exactly as they were. *)
Theorem install_keeps_entries (h : Host) (cs : CacheStorage) (name : string)
    (c : gmap string Response.t) :
  storage_lookup cs name = Some c →
  ∃ c',
    storage_lookup (store (install_listener h cs)) name = Some c' ∧
    (∀ url, is_Some (c !! url) → is_Some (c' !! url)) ∧
    (name ≠ "visual-mind-ai-v1.0.0" → c' = c).
Proof.
  intros Hl.
  destruct (open_error h CACHE_NAME) as [e|] eqn:Ho.
  - rewrite (install_fails_when_cache_cannot_open h e cs Ho). by exists c.
  - rewrite (install_listener_run h cs Ho). unfold store. simpl.
    assert (Hopen : storage_lookup (storage_open cs CACHE_NAME) name = Some c)
      by by rewrite storage_lookup_open, Hl.
    unfold cache_addAll.
    destruct (fetch_all h (precache_requests h)) as [entries|]; simpl;
      [|by exists c].
    destruct (decide (CACHE_NAME = name)) as [<- | Hne].
    + destruct (fold_put_lookup CACHE_NAME entries _ c Hopen) as (c' & Hc' & Hin).
      exists c'. split; [done|]. split; [|done].
      intros url Hu. apply Hin. by right.
    + exists c. by rewrite fold_put_other.
Qed.

Lemma install_keeps_entries_witness :
  storage_lookup sample_store "visual-mind-ai-v0.9.0"
    = Some {[ "https://visual-mind.example/" := page_response ]} ∧
  storage_lookup (store (install_listener (online_host page_response) sample_store))
    "visual-mind-ai-v0.9.0"
    = Some {[ "https://visual-mind.example/" := page_response ]}.
Proof.
  assert (Hl : storage_lookup sample_store "visual-mind-ai-v0.9.0"
               = Some {[ "https://visual-mind.example/" := page_response ]})
    by reflexivity.
  split; [exact Hl|].
  destruct (install_keeps_entries (online_host page_response) sample_store
              _ _ Hl) as (c' & Hc' & _ & Hsame).
  rewrite Hc'. f_equal. apply Hsame. discriminate.
Defined.

Lemma fetch_all_one_failure (h : Host) (requests : list Request.t)
    (r : Request.t) :
  r ∈ requests →
  (∀ resp, network h r = Fulfilled resp → ok_status resp = false) →
  fetch_all h requests = None.
Proof.
  intros Hin Hbad. induction requests as [|r0 requests IH]; simpl.
  - by apply elem_of_nil in Hin.
  - destruct (network h r0) as [resp|] eqn:Hn; [|done].
    destruct (ok_status resp) eqn:Hok; [|done].
    apply elem_of_cons in Hin as [-> | Hin].
    + rewrite (Hbad resp Hn) in Hok. discriminate.
    + by rewrite IH.
Qed.

(** X13: the precache is all or nothing.  If the request for a single
    URL of the list (that URL resolved against the worker's URL, in
    no-cors mode) fails on the network or is answered with a status that
    [addAll] does not accept (an opaque response, which a no-cors
    request to another origin gets, has status 0), then nothing at all
    is stored, the pages that were fetched well included; the
    installation goes through all the same. *)
Theorem install_one_failure_stores_nothing (h : Host) (cs : CacheStorage)
    (url : string) :
  open_error h CACHE_NAME = None →
  url ∈ PRECACHE_URLS →
  (∀ resp, network h (new_Request (origin h) url NoCors) = Fulfilled resp →
           ok_status resp = false) →
  install_listener h cs =
    (Fulfilled tt, storage_open cs CACHE_NAME,
     [CachesOpen "visual-mind-ai-v1.0.0";
      CacheAddAll "visual-mind-ai-v1.0.0"
        (map (fun url => new_Request (origin h) url NoCors) PRECACHE_URLS);
      SkipWaiting]).
Proof.
  intros Ho Hin Hbad. rewrite (install_listener_run h cs Ho).
  unfold cache_addAll, store.
  rewrite (fetch_all_one_failure h (precache_requests h)
             (new_Request (origin h) url NoCors)); [done | | done].
  unfold precache_requests.
  by apply (list_elem_of_fmap_2 (fun url => new_Request (origin h) url NoCors)).
Qed.

Lemma install_one_failure_stores_nothing_witness :
  "https://cdn.tailwindcss.com" ∈ PRECACHE_URLS ∧
  new_Request (origin cross_origin_host) "/index.html" NoCors =
    Request.mk "https://visual-mind.example/index.html" "GET" NoCors [] ∧
  network cross_origin_host
    (Request.mk "https://visual-mind.example/index.html" "GET" NoCors [])
    = Fulfilled page_response ∧
  new_Request (origin cross_origin_host) "https://cdn.tailwindcss.com" NoCors =
    Request.mk "https://cdn.tailwindcss.com/" "GET" NoCors [] ∧
  network cross_origin_host
    (Request.mk "https://cdn.tailwindcss.com/" "GET" NoCors [])
    = Fulfilled opaque_response ∧
  install_listener cross_origin_host [] =
    (Fulfilled tt, [("visual-mind-ai-v1.0.0", ∅)],
     [CachesOpen "visual-mind-ai-v1.0.0";
      CacheAddAll "visual-mind-ai-v1.0.0" (precache_requests cross_origin_host);
      SkipWaiting]).
Proof.
  assert (Hin : "https://cdn.tailwindcss.com" ∈ PRECACHE_URLS)
    by (unfold PRECACHE_URLS; find_in_trace).
  split; [exact Hin|]. repeat (split; [reflexivity|]).
  apply (install_one_failure_stores_nothing cross_origin_host []
           "https://cdn.tailwindcss.com" eq_refl Hin).
  intros resp [= <-]. reflexivity.
Defined.

(** ** Push: when a notification is shown, and what it carries *)

Lemma push_listener_run (event_data : option PushMessageData) (cs : CacheStorage) :
  push_listener event_data cs =
    match push_data event_data with
    | Threw e => (Threw e, cs, [])
    | Returned data =>
        match member data "title" with
        | Threw e => (Threw e, cs, [])
        | Returned _ =>
            (Returned (Fulfilled tt), cs, [notification_of field_or data])
        end
    end.
Proof.
  unfold push_listener, push_notification.
  destruct (push_data event_data) as [data | e]; [|done]. unfold cbind at 1.
  assert (data = JNull ∨ data = JUndefined ∨ (data ≠ JNull ∧ data ≠ JUndefined))
    as [-> | [-> | [Hn Hu]]]
    by (destruct data; auto; right; right; split; discriminate);
    [done | done |].
  rewrite !(member_field data) by done. unfold cbind.
  by rewrite !js_or_field.
Qed.

(** X14: the push listener either shows exactly one notification and
    returns, or throws and shows none; it throws exactly when the
    payload is there and cannot be parsed as JSON or parses to null
    (reading [data.title] of it throws).  It never touches the cache
    store. *)
Theorem push_shows_nothing_iff (event_data : option PushMessageData)
    (cs : CacheStorage) :
  let r := push_listener event_data cs in
  store r = cs ∧
  (calls r = [] ↔
   (∃ e, push_data event_data = Threw e) ∨
   push_data event_data = Returned JNull ∨
   push_data event_data = Returned JUndefined) ∧
  (calls r = [] → event_data ≠ None ∧ ∃ e, result r = Threw e) ∧
  (calls r ≠ [] →
   result r = Returned (Fulfilled tt) ∧
   ∃ title options, calls r = [ShowNotification title options]).
Proof.
  intros r. subst r. rewrite push_listener_run.
  destruct (push_data event_data) as [data | e] eqn:Hd.
  - assert (data = JNull ∨ data = JUndefined ∨ (data ≠ JNull ∧ data ≠ JUndefined))
      as [-> | [-> | [Hn Hu]]]
      by (destruct data; auto; right; right; split; discriminate).
    + simpl. repeat split; try done; [by auto | by intros -> | by eexists].
    + simpl. repeat split; try done; [by auto | by intros -> | by eexists].
    + rewrite member_field by done. unfold store, calls, result. simpl.
      repeat split; try done.
      * intros [(e & He) | [He | He]]; congruence.
      * by eexists _, _.
  - simpl. repeat split; try done; [by eauto | by intros -> | by eexists].
Qed.

Lemma push_shows_nothing_iff_witness :
  push_data text_push = Threw (SyntaxError "Unexpected token") ∧
  calls (push_listener text_push sample_store) = [] ∧
  ∃ e, result (push_listener text_push sample_store) = Threw e.
Proof.
  destruct (push_shows_nothing_iff text_push sample_store)
    as (_ & Hiff & Hthrow & _).
  assert (Hc : calls (push_listener text_push sample_store) = []).
  { apply Hiff. left. by eexists. }
  split; [reflexivity|]. split; [exact Hc|].
  exact (proj2 (Hthrow Hc)).
Defined.

Lemma field_or_truthy (data : JsVal) (k : string) (d : JsVal) :
  truthy d = true → truthy (field_or data k d) = true.
Proof.
  intros Hd. unfold field_or.
  destruct (payload_field data k) as [v|]; [|done].
  by destruct (truthy v) eqn:Hv.
Qed.

(** X15: a notification that is shown never has an empty part: title,
    body, tag and data are truthy values (a payload field that is
    empty, zero, false or null gives way to the default), and
    requireInteraction is [false] or a truthy value.  The icon, the
    badge and the vibration pattern are the worker's own: a payload
    cannot set them. *)
Theorem push_notification_fields (event_data : option PushMessageData)
    (data : JsVal) (cs : CacheStorage) :
  push_data event_data = Returned data →
  data ≠ JNull → data ≠ JUndefined →
  ∃ title props,
    calls (push_listener event_data cs) = [ShowNotification title (JObj props)] ∧
    truthy title = true ∧
    (∃ body, own_prop props "body" = Some body ∧ truthy body = true) ∧
    (∃ tag, own_prop props "tag" = Some tag ∧ truthy tag = true) ∧
    (∃ d, own_prop props "data" = Some d ∧ truthy d = true) ∧
    (∃ ri, own_prop props "requireInteraction" = Some ri ∧
           (ri = JBool false ∨ truthy ri = true)) ∧
    own_prop props "icon" = Some (JStr "/icon-192.png") ∧
    own_prop props "badge" = Some (JStr "/badge-72.png") ∧
    own_prop props "vibrate" = Some (JArr [JNum 200; JNum 100; JNum 200]).
Proof.
  intros Hd Hn Hu. rewrite push_listener_run, Hd, member_field by done.
  unfold calls, notification_of. simpl.
  eexists _, _. split; [done|].
  split; [by apply field_or_truthy|].
  split; [eexists; split; [done | by apply field_or_truthy]|].
  split; [eexists; split; [done | by apply field_or_truthy]|].
  split; [eexists; split; [done | by apply field_or_truthy]|].
  split; [|done].
  eexists. split; [done|]. unfold field_or.
  destruct (payload_field data "requireInteraction") as [v|]; [|by left].
  destruct (truthy v) eqn:Hv; [by right | by left].
Qed.

Lemma push_notification_fields_witness :
  push_data titled_push
    = Returned (JObj [ ("title", JStr "Copia lista"); ("body", JStr "") ]) ∧
  calls (push_listener titled_push []) =
    [ShowNotification (JStr "Copia lista")
       (JObj [ ("body", JStr "Nueva notificación");
               ("icon", JStr "/icon-192.png");
               ("badge", JStr "/badge-72.png");
               ("vibrate", JArr [JNum 200; JNum 100; JNum 200]);
               ("tag", JStr "default");
               ("requireInteraction", JBool false);
               ("data", JObj []) ])] ∧
  ∃ title props,
    calls (push_listener titled_push []) = [ShowNotification title (JObj props)] ∧
    truthy title = true.
Proof.
  assert (Hn : JObj [ ("title", JStr "Copia lista"); ("body", JStr "") ] ≠ JNull)
    by discriminate.
  assert (Hu : JObj [ ("title", JStr "Copia lista"); ("body", JStr "") ] ≠ JUndefined)
    by discriminate.
  split; [reflexivity|]. split; [reflexivity|].
  destruct (push_notification_fields titled_push _ [] eq_refl Hn Hu)
    as (title & props & Hc & Ht & _).
  by exists title, props.
Defined.

(** ** Notification clicks *)

Lemma focus_open_window_spec (k : ClientHost) (clientList : list WindowClient) :
  match focus_open_window k clientList with
  | Some focused =>
      ∃ before client after,
        clientList = before ++ client :: after ∧
        (∀ c, c ∈ before → ¬ (client_url c = "/" ∧ has_focus c = true)) ∧
        client_url client = "/" ∧ has_focus client = true ∧
        focused = (settle (focus_error k client), [ClientFocus client])
  | None =>
      ∀ c, c ∈ clientList → ¬ (client_url c = "/" ∧ has_focus c = true)
  end.
Proof.
  induction clientList as [|c0 rest IH]; simpl.
  - intros c Hc. by apply elem_of_nil in Hc.
  - destruct (String.eqb_spec (client_url c0) "/") as [Hurl | Hurl]; simpl.
    + destruct (has_focus c0) eqn:Hf.
      * exists [], c0, rest. repeat split; try done.
        intros c Hc. by apply elem_of_nil in Hc.
      * destruct (focus_open_window k rest) as [focused|].
        -- destruct IH as (before & client & after & -> & Hb & Hu & Hfc & ->).
           exists (c0 :: before), client, after. repeat split; try done.
           intros c Hc. apply elem_of_cons in Hc as [-> | Hc]; [|by apply Hb].
           intros [_ ?]. congruence.
        -- intros c Hc. apply elem_of_cons in Hc as [-> | Hc]; [|by apply IH].
           intros [_ ?]. congruence.
    + destruct (focus_open_window k rest) as [focused|].
      * destruct IH as (before & client & after & -> & Hb & Hu & Hfc & ->).
        exists (c0 :: before), client, after. repeat split; try done.
        intros c Hc. apply elem_of_cons in Hc as [-> | Hc]; [|by apply Hb].
        by intros [? _].
      * intros c Hc. apply elem_of_cons in Hc as [-> | Hc]; [|by apply IH].
        by intros [? _].
Qed.

(** X16: a click closes the notification and then lists the window
    clients.  If it focuses a client, that client is the first in the
    list whose URL is exactly ['/'] and that has [focus]; nothing else
    is done (no window is opened, no second client focused), and the
    promise the event waits for settles as that [focus()] does. *)
Theorem notificationclick_focuses_first_root (k : ClientHost)
    (client : WindowClient) :
  ClientFocus client ∈ (notificationclick_listener k).2 →
  ∃ before after,
    windows k = before ++ client :: after ∧
    (∀ c, c ∈ before → ¬ (client_url c = "/" ∧ has_focus c = true)) ∧
    client_url client = "/" ∧ has_focus client = true ∧
    notificationclick_listener k =
      (settle (focus_error k client),
       [NotificationClose; MatchAllWindows; ClientFocus client]).
Proof.
  unfold notificationclick_listener. intros Hin.
  pose proof (focus_open_window_spec k (windows k)) as Hspec.
  destruct (focus_open_window k (windows k)) as [focused|].
  - destruct Hspec as (before & c & after & Hw & Hb & Hu & Hf & ->).
    simpl in Hin. scan_trace Hin. injection Hin as ->.
    by exists before, after.
  - destruct (can_openWindow k); simpl in Hin; scan_trace Hin.
Qed.

Lemma notificationclick_focuses_first_root_witness :
  ClientFocus root_window
    ∈ (notificationclick_listener (click_host [app_window; root_window])).2 ∧
  notificationclick_listener (click_host [app_window; root_window]) =
    (Fulfilled tt, [NotificationClose; MatchAllWindows; ClientFocus root_window]).
Proof.
  assert (Hin : ClientFocus root_window
                ∈ (notificationclick_listener
                     (click_host [app_window; root_window])).2)
    by (simpl; find_in_trace).
  split; [exact Hin|].
  destruct (notificationclick_focuses_first_root _ _ Hin)
    as (before & after & _ & _ & _ & _ & Hrun).
  exact Hrun.
Defined.

(** X17: the URL test of the click listener compares with the string
    ['/'].  When no listed client has exactly that URL (a client with an
    absolute URL such as https://visual-mind.example/ does not), no
    client is focused, however many windows of the application are
    open: the listener opens a new window on ['/'] and the event waits
    for it, or does nothing more when [openWindow] is missing. *)
Theorem notificationclick_opens_window (k : ClientHost) :
  (∀ c, c ∈ windows k → client_url c ≠ "/") →
  notificationclick_listener k =
    if can_openWindow k
    then (settle (openWindow_error k "/"),
          [NotificationClose; MatchAllWindows; OpenWindow "/"])
    else (Fulfilled tt, [NotificationClose; MatchAllWindows]).
Proof.
  intros Hurls. unfold notificationclick_listener.
  pose proof (focus_open_window_spec k (windows k)) as Hspec.
  destruct (focus_open_window k (windows k)) as [focused|].
  - destruct Hspec as (before & c & after & Hw & _ & Hu & _).
    exfalso. apply (Hurls c); [|done].
    rewrite Hw. apply elem_of_app. right. by left.
  - by destruct (can_openWindow k).
Qed.

Lemma notificationclick_opens_window_witness :
  (∀ c, c ∈ windows (click_host [app_window]) → client_url c ≠ "/") ∧
  notificationclick_listener (click_host [app_window]) =
    (Fulfilled tt, [NotificationClose; MatchAllWindows; OpenWindow "/"]).
Proof.
  assert (Hu : ∀ c, c ∈ windows (click_host [app_window]) → client_url c ≠ "/").
  { intros c Hc. simpl in Hc. apply list_elem_of_singleton in Hc. by subst. }
  split; [exact Hu|].
  exact (notificationclick_opens_window (click_host [app_window]) Hu).
Defined.

Example sync_sample :
  sync_listener "sync-recordings" = Some (Fulfilled tt) ∧
  sync_listener "sync-photos" = None.
Proof. split; reflexivity. Qed.

Example parse_url_sample :
  parse_url "https://visual-mind.example" "/" = "https://visual-mind.example/" ∧
  parse_url "https://visual-mind.example" "/index.html"
    = "https://visual-mind.example/index.html" ∧
  parse_url "https://visual-mind.example" "https://cdn.tailwindcss.com"
    = "https://cdn.tailwindcss.com/" ∧
  parse_url "https://visual-mind.example" "https://cdn.tailwindcss.com?plugins=forms"
    = "https://cdn.tailwindcss.com/?plugins=forms" ∧
  parse_url "https://visual-mind.example"
    "https://unpkg.com/react@18/umd/react.production.min.js"
    = "https://unpkg.com/react@18/umd/react.production.min.js".
Proof. repeat split; reflexivity. Qed.

Example install_then_offline_sample :
  result (fetch_listener offline_host page_request
            (store (install_listener (online_host page_response) []))) =
    RespondWith (Fulfilled page_response) ∧
  cache_names (store (install_listener (online_host page_response) [])) =
    ["visual-mind-ai-v1.0.0"].
Proof. split; reflexivity. Qed.
